(** * SecurityMonitor: the window procedure, the logging sink and the run loop

    A shallow embedding of [SecurityMonitor.cpp].  The program is a Win32
    message-only window that writes one line to an append-only log for each
    clipboard update, device-interface arrival/removal and volume
    arrival/removal it is told about.

    Conventions of the embedding:
    - machine integers ([UINT], [WPARAM], [DWORD], [LRESULT], [int]) are [Z];
    - narrow strings ([std::string]) are [string], wide characters are [Z];
    - the process state the code mutates (the global log stream, the console
      streams, the window handle) is the record [World], threaded explicitly;
    - what the operating system computes (the clock, the text of an error
      code, the wide-to-narrow conversion, default message handling, how
      much of a write the disk takes) is the record [Platform], a section
      variable;
    - what the operating system answers during one run (results of the
      start-up calls, what the log file holds already, the messages it
      delivers) is the record [Session];
    - the payload of a device change is a record of the fields the code
      reads ([DEV_BROADCAST_HDR]); it is also given as the block of bytes
      behind the pointer ([Block], [WindowProc_raw]), where a read outside
      the block can be told from a return;
    - a C++ exception leaving a function is [None]. *)

From Stdlib Require Import ZArith List String Ascii Bool Lia DecimalString.
Import ListNotations.

Local Open Scope string_scope.
Local Open Scope list_scope.
Local Open Scope Z_scope.

(** ** Constants of the platform headers used by the source *)

Definition WM_DESTROY : Z := 0x0002.
Definition WM_DEVICECHANGE : Z := 0x0219.
Definition WM_CLIPBOARDUPDATE : Z := 0x031D.
Definition DBT_DEVICEARRIVAL : Z := 0x8000.
Definition DBT_DEVICEREMOVECOMPLETE : Z := 0x8004.
Definition DBT_DEVTYP_VOLUME : Z := 2.
Definition DBT_DEVTYP_DEVICEINTERFACE : Z := 5.
Definition TRUE : Z := 1.

(** ** GUIDs *)

Record GUID := mkGUID {
  Data1 : Z;            (* unsigned long  *)
  Data2 : Z;            (* unsigned short *)
  Data3 : Z;            (* unsigned short *)
  Data4 : list Z        (* unsigned char [8] *)
}.

(** [DEFINE_GUID(GUID_DEVINTERFACE_USB_DEVICE, 0xA5DCBF10L, 0x6530, 0x11D2,
    0x90, 0x1F, 0x00, 0xC0, 0x4F, 0xB9, 0x51, 0xED)]. *)
Definition GUID_DEVINTERFACE_USB_DEVICE : GUID :=
  mkGUID 0xA5DCBF10 0x6530 0x11D2
         [0x90; 0x1F; 0x00; 0xC0; 0x4F; 0xB9; 0x51; 0xED].

Fixpoint bytes_eqb (a b : list Z) : bool :=
  match a, b with
  | [], [] => true
  | x :: a', y :: b' => (x =? y) && bytes_eqb a' b'
  | _, _ => false
  end.

(** [IsEqualGUID]: a field-by-field comparison of the sixteen bytes. *)
Definition IsEqualGUID (a b : GUID) : bool :=
  (Data1 a =? Data1 b) && (Data2 a =? Data2 b) && (Data3 a =? Data3 b)
  && bytes_eqb (Data4 a) (Data4 b).

(** ** The device-broadcast payload

    [lParam] of a [WM_DEVICECHANGE] message points to a [DEV_BROADCAST_HDR]
    which the code casts to [DEV_BROADCAST_DEVICEINTERFACE] or to
    [DEV_BROADCAST_VOLUME] after looking at [dbch_devicetype].  The record
    holds the header and the fields the code reads through either cast; the
    discriminator is an arbitrary [DWORD], independent of the other fields.
    A record stands for a payload whose block holds every field that is
    read; blocks that do not are the matter of [Block] and [WindowProc_raw]
    below. *)

Record DEV_BROADCAST_HDR := mkHDR {
  dbch_size : Z;
  dbch_devicetype : Z;
  dbch_reserved : Z;
  dbcc_classguid : GUID;      (* through PDEV_BROADCAST_DEVICEINTERFACE *)
  dbcc_name : list Z;         (* wchar_t dbcc_name[], NUL-terminated     *)
  dbcv_unitmask : Z;          (* through PDEV_BROADCAST_VOLUME           *)
  dbcv_flags : Z
}.

(** [lParam]: [None] is the null pointer. *)
Definition LPARAM := option DEV_BROADCAST_HDR.

Record MSG := mkMSG {
  message : Z;
  wParam : Z;
  lParam : LPARAM
}.

(** ** The payload as the bytes [lParam] points to

    The record above has every field, whatever the structure the system
    sent.  The code has a pointer: it reads [dbch_devicetype] and then,
    through the cast the device type selects, fields of the larger
    structure.  A [Block] is the bytes that may be read from the address in
    [lParam]; a read that is not wholly inside the block is undefined in
    C++ and is kept apart as a result of its own ([BadRead] below).  The
    layout is that of [dbt.h], little-endian: [dbch_size] at offset 0,
    [dbch_devicetype] at 4, [dbch_reserved] at 8; through
    [PDEV_BROADCAST_DEVICEINTERFACE], [dbcc_classguid] at 12 and
    [dbcc_name] from 28 on; through [PDEV_BROADCAST_VOLUME],
    [dbcv_unitmask] at 12 and [dbcv_flags] at 16. *)

Definition Block := list Z.

Fixpoint le_value (bytes : list Z) : Z :=
  match bytes with
  | [] => 0
  | b :: rest => b + 256 * le_value rest
  end.

(** The [n] bytes at offset [off], when they are all inside the block. *)
Definition read_bytes (b : Block) (off n : nat) : option (list Z) :=
  let got := firstn n (skipn off b) in
  if (List.length got =? n)%nat then Some got else None.

Definition read_DWORD (b : Block) (off : nat) : option Z :=
  option_map le_value (read_bytes b off 4).

Definition read_WORD (b : Block) (off : nat) : option Z :=
  option_map le_value (read_bytes b off 2).

Definition read_GUID (b : Block) (off : nat) : option GUID :=
  match read_DWORD b off, read_WORD b (off + 4), read_WORD b (off + 6),
        read_bytes b (off + 8) 8 with
  | Some d1, Some d2, Some d3, Some d4 => Some (mkGUID d1 d2 d3 d4)
  | _, _, _, _ => None
  end.

(** The wide characters from the start of [bytes] up to and including the
    first NUL, when there is one inside the block. *)
Fixpoint wide_string_at (bytes : list Z) : option (list Z) :=
  match bytes with
  | lo :: hi :: rest =>
      let c := lo + 256 * hi in
      if c =? 0 then Some [0] else option_map (cons c) (wide_string_at rest)
  | _ => None
  end.

Definition read_wide_string (b : Block) (off : nat) : option (list Z) :=
  wide_string_at (skipn off b).

Definition or_zero (o : option Z) : Z :=
  match o with Some z => z | None => 0 end.

(** The record a block stands for: each field as it is read at its offset,
    0 (or empty) where the block does not reach. *)
Definition view (b : Block) : DEV_BROADCAST_HDR :=
  mkHDR (or_zero (read_DWORD b 0)) (or_zero (read_DWORD b 4))
        (or_zero (read_DWORD b 8))
        (match read_GUID b 12 with Some g => g | None => mkGUID 0 0 0 [] end)
        (match read_wide_string b 28 with Some n => n | None => [] end)
        (or_zero (read_DWORD b 12)) (or_zero (read_WORD b 16)).

(** ** Output lines and streams *)

(** A line is kept as the timestamp prefix and the text after it; the
    characters written are [stamp ++ text]. *)
Record Line := mkLine { stamp : string; text : string }.

Definition render (l : Line) : string := (stamp l ++ text l)%string.

(** [std::ofstream] opened with [std::ios::app], and the file behind it.
    Once the fail bit is set, insertions do nothing.  Every line is flushed
    when it is written, so a failed write concerns one line only: a first
    part of its characters may have reached the file, the rest stays in the
    buffer until the stream is closed. *)
Record ofstream := mkStream {
  is_open : bool;
  failbit : bool;
  earlier : string;        (* what the file held when it was opened *)
  written : list Line;     (* the lines this stream has added, each whole *)
  torn : string;           (* the part of a refused line that is in the file *)
  pending : string         (* the rest of that line, still in the buffer *)
}.

(** The characters of a line with the newline of [std::endl]. *)
Definition line_chars (l : Line) : string :=
  (render l ++ String (ascii_of_nat 10) "")%string.

(** The characters in the file. *)
Definition file_chars (f : ofstream) : string :=
  (earlier f ++ String.concat "" (map line_chars (written f)) ++ torn f)%string.

(** The calls to the Win32 API that the source makes, in order.  (The
    comparison [IsEqualGUID] and the C++ library are not calls of this
    kind.) *)
Inductive OsCall :=
| Call_GetModuleFileNameW
| Call_GetLastError
| Call_FormatMessageA (dwMessageId : Z)
| Call_LocalFree
| Call_GetModuleHandle
| Call_RegisterClassW
| Call_CreateWindowExW
| Call_AddClipboardFormatListener
| Call_RegisterDeviceNotification
| Call_GetMessage
| Call_TranslateMessage
| Call_DispatchMessage
| Call_RemoveClipboardFormatListener
| Call_DestroyWindow
| Call_PostQuitMessage (nExitCode : Z)
| Call_DefWindowProc (uMsg wParam : Z)
| Call_WideCharToMultiByte (src : list Z) (cbMultiByte : Z).

Record World := mkWorld {
  g_logFile : ofstream;
  g_logFilePath : string;
  g_hwnd : Z;
  cout : list Line;
  cerr : list Line;
  clock_reads : nat;          (* how often the clock has been read *)
  os_calls : list OsCall
}.

Definition initial_World : World :=
  mkWorld (mkStream false false "" [] "" "") "" 0 [] [] 0 [].

(** ** What the platform computes *)

Record Platform := mkPlatform {
  (* the k-th reading and formatting of the clock in GetTimestamp: the
     string built by put_time, or what() of the exception thrown *)
  timestamp_at : nat -> string + string;
  (* FormatMessageA(..., errorCode, ...) *)
  FormatMessageA : Z -> string;
  (* WideCharToMultiByte(CP_UTF8, 0, src, len, dst, cbMultiByte, NULL, NULL):
     the value returned and the bytes it stores at dst *)
  WideCharToMultiByte : list Z -> Z -> Z * list ascii;
  DefWindowProc : Z -> Z -> Z -> LPARAM -> Z;
  (* whether the stream takes the line that would be its n-th; when it
     does not, how many characters of the line reach the file all the same,
     at once and when the stream is closed *)
  disk_accepts : nat -> bool;
  disk_partial : nat -> nat;
  close_partial : nat -> nat;
  (* std::filesystem::path::parent_path and operator/ *)
  parent_path : string -> string;
  path_append : string -> string -> string
}.

(** ** Field updates of [World] *)

Definition set_logFile (f : ofstream) (w : World) : World :=
  mkWorld f (g_logFilePath w) (g_hwnd w) (cout w) (cerr w)
          (clock_reads w) (os_calls w).

Definition set_logFilePath (p : string) (w : World) : World :=
  mkWorld (g_logFile w) p (g_hwnd w) (cout w) (cerr w)
          (clock_reads w) (os_calls w).

Definition set_hwnd (h : Z) (w : World) : World :=
  mkWorld (g_logFile w) (g_logFilePath w) h (cout w) (cerr w)
          (clock_reads w) (os_calls w).

Definition put_cout (l : Line) (w : World) : World :=
  mkWorld (g_logFile w) (g_logFilePath w) (g_hwnd w) (cout w ++ [l]) (cerr w)
          (clock_reads w) (os_calls w).

Definition put_cerr (l : Line) (w : World) : World :=
  mkWorld (g_logFile w) (g_logFilePath w) (g_hwnd w) (cout w) (cerr w ++ [l])
          (clock_reads w) (os_calls w).

Definition tick (w : World) : World :=
  mkWorld (g_logFile w) (g_logFilePath w) (g_hwnd w) (cout w) (cerr w)
          (S (clock_reads w)) (os_calls w).

Definition os_call (c : OsCall) (w : World) : World :=
  mkWorld (g_logFile w) (g_logFilePath w) (g_hwnd w) (cout w) (cerr w)
          (clock_reads w) (os_calls w ++ [c]).

(** ** Small pieces of the C++ library *)

(** [std::to_string] of an unsigned value. *)
Definition to_string (n : Z) : string :=
  NilZero.string_of_uint (N.to_uint (Z.to_N n)).

(** Conversion of an [int] to [char]. *)
Definition char_of_int (n : Z) : ascii := ascii_of_N (Z.to_N (n mod 256)).

(** [std::wstring] built from a wide C string: the characters before the
    first NUL.  (The list is the array as far as it may be read; an array
    with no NUL in it is told apart by [read_wide_string].) *)
Fixpoint wstring_of (p : list Z) : list Z :=
  match p with
  | [] => []
  | c :: rest => if c =? 0 then [] else c :: wstring_of rest
  end.

(** [std::string(count, ch)] with [count] an [int]: converted to [size_t], a
    negative count exceeds [max_size()] and the constructor throws
    [std::length_error]. *)
Definition string_fill (count : Z) (ch : ascii) : option (list ascii) :=
  if count <? 0 then None else Some (repeat ch (Z.to_nat count)).

(** Bytes stored at the start of a buffer; the buffer keeps its length. *)
Definition store_into (buf bytes : list ascii) : list ascii :=
  firstn (List.length buf) (bytes ++ skipn (List.length bytes) buf).

(** [stream << line << std::endl; stream.flush()]: the line is taken whole,
    or the write fails with the first [partial n] characters in the file. *)
Definition stream_put (accepts : nat -> bool) (partial : nat -> nat)
           (l : Line) (f : ofstream) : ofstream :=
  if failbit f then f
  else
    let n := List.length (written f) in
    if accepts n
    then mkStream (is_open f) false (earlier f) (written f ++ [l])
                  (torn f) (pending f)
    else
      let chars := line_chars l in
      let k := partial n in
      mkStream (is_open f) true (earlier f) (written f)
               (substring 0 k chars)
               (substring k (String.length chars - k) chars).

(** [stream.close()]: what is left in the buffer is written as far as the
    disk takes it ([k] characters), and the stream is no longer open. *)
Definition stream_close (k : nat) (f : ofstream) : ofstream :=
  mkStream false (failbit f) (earlier f) (written f)
           (torn f ++ substring 0 k (pending f)) "".

(** The loop that finds the drive letter of a unit mask:
[[
    char driveLetter = '?';
    for (char i = 0; i < 26; ++i)
        if (driveMask & (1 << i)) { driveLetter = 'A' + i; break; }
]]
    [remaining] counts the iterations left, [26 - i]. *)
Fixpoint scan_unitmask (remaining : nat) (i : Z) (driveMask : Z) : ascii :=
  match remaining with
  | O => "?"%char
  | S r =>
      if negb (Z.land driveMask (Z.shiftl 1 i) =? 0)
      then char_of_int (65 + i)
      else scan_unitmask r (i + 1) driveMask
  end.

Definition DecodeDriveLetter (driveMask : Z) : ascii :=
  scan_unitmask 26 0 driveMask.

(** [(int)msg.wParam]: the low 32 bits, read as a signed value. *)
Definition to_int (n : Z) : Z := (n + 2 ^ 31) mod 2 ^ 32 - 2 ^ 31.

(** ** What the operating system answers during one run *)

(** The outcome of a call that reports failure through its return value and
    [GetLastError]. *)
Inductive ApiResult (A : Type) :=
| Succeeded (a : A)
| Failed (lastError : Z).
Arguments Succeeded {A} a.
Arguments Failed {A} lastError.

(** One call of [GetMessage]: the messages the system sends to the window
    procedure while the call waits (sent messages such as [WM_DEVICECHANGE]
    are delivered from inside [GetMessage]), the value returned and the
    message stored in [msg]. *)
Record GetMessageCall := mkGetMessage {
  sent_during : list MSG;
  gm_return : Z;
  gm_msg : MSG
}.

Record Session := mkSession {
  (* the path stored by GetModuleFileNameW *)
  GetModuleFileNameW_result : ApiResult string;
  (* std::filesystem::current_path(): the path, or what() of the exception *)
  current_path_result : string + string;
  (* g_logFile.is_open() after g_logFile.open(...) *)
  log_open_result : bool;
  (* what the log file holds already when it is opened *)
  log_earlier : string;
  RegisterClassW_result : ApiResult unit;
  CreateWindowExW_result : ApiResult Z;
  AddClipboardFormatListener_result : ApiResult unit;
  RegisterDeviceNotification_result : ApiResult unit;
  (* the successive calls of GetMessage that return; the call after the
     last one listed does not return *)
  GetMessage_calls : list GetMessageCall;
  (* the messages the system sends to the window procedure during the call
     that does not return *)
  GetMessage_blocked_sends : list MSG;
  (* the messages DestroyWindow sends to the window procedure *)
  DestroyWindow_sends : list MSG
}.

(** How [main] ends. *)
Inductive Outcome :=
| Exited (code : Z) (w : World)     (* main returned code *)
| Waiting (w : World)               (* inside a GetMessage that does not return *)
| Thrown.                           (* an exception left the window procedure *)

Definition g_logFileName : string := "SecurityMonitorLog.txt".

Section Program.

Variable P : Platform.

(** ** The logging sink *)

(** The [catch] branch reports the exception on [std::cerr] and returns
    the text ["[TIMESTAMP_ERROR] "]. *)
Definition GetTimestamp (w : World) : string * World :=
  match timestamp_at P (clock_reads w) with
  | inl ts => (ts, tick w)
  | inr what =>
      ("[TIMESTAMP_ERROR] ",
       put_cerr (mkLine "" ("Error getting timestamp: " ++ what)) (tick w))
  end.

Definition LogEvent (msg : string) (w : World) : World :=
  let (ts, w1) := GetTimestamp w in
  let timedMessage := mkLine ts msg in
  let w2 := put_cout timedMessage w1 in
  if is_open (g_logFile w2) then
    let w3 :=
      set_logFile (stream_put (disk_accepts P) (disk_partial P)
                              timedMessage (g_logFile w2)) w2
    in
    if failbit (g_logFile w3) then
      let (ts', w4) := GetTimestamp w3 in
      put_cerr (mkLine ts' ("FATAL: Failed to write to log file '"
                            ++ g_logFilePath w4 ++ "'!")) w4
    else w3
  else
    let (ts', w4) := GetTimestamp w2 in
    put_cerr (mkLine ts' ("ERROR: Log file is not open. Cannot log: " ++ msg))
             w4.

Definition LogError (context : string) (errorCode : Z) (w : World) : World :=
  let w := os_call (Call_FormatMessageA errorCode) w in
  let errorMessage := FormatMessageA P errorCode in
  let w := os_call Call_LocalFree w in
  let logMsg := ("ERROR in " ++ context ++ ": " ++ errorMessage
                 ++ " (Code: " ++ to_string errorCode ++ ")")%string in
  LogEvent logMsg w.

(** [g_logFile.close()]. *)
Definition close_log (w : World) : World :=
  set_logFile
    (stream_close (close_partial P (List.length (written (g_logFile w))))
                  (g_logFile w)) w.

(** ** The window procedure *)

(** The conversion of the device path, written twice in the source (once in
    each branch of the class test) with the same text:
[[
    std::wstring devPathW(pDevInf->dbcc_name);
    int size_needed = WideCharToMultiByte(CP_UTF8, 0, &devPathW[0],
                          (int)devPathW.size(), NULL, 0, NULL, NULL);
    std::string devPathA(size_needed, 0);
    WideCharToMultiByte(CP_UTF8, 0, &devPathW[0], (int)devPathW.size(),
                        &devPathA[0], size_needed, NULL, NULL);
]] *)
Definition narrow_device_path (name : list Z) (w : World)
  : option (string * World) :=
  let devPathW := wstring_of name in
  let size_needed := fst (WideCharToMultiByte P devPathW 0) in
  let w1 := os_call (Call_WideCharToMultiByte devPathW 0) w in
  match string_fill size_needed zero with
  | None => None
  | Some devPathA =>
      let stored := snd (WideCharToMultiByte P devPathW size_needed) in
      let w2 := os_call (Call_WideCharToMultiByte devPathW size_needed) w1 in
      Some (string_of_list_ascii (store_into devPathA stored), w2)
  end.

Definition WindowProc (hwnd uMsg wParam : Z) (lParam : LPARAM) (w : World)
  : option (Z * World) :=
  if uMsg =? WM_DESTROY then
    let w1 := LogEvent "Window destroyed, stopping message loop." w in
    let w2 := os_call (Call_PostQuitMessage 0) w1 in
    Some (0, w2)
  else if uMsg =? WM_CLIPBOARDUPDATE then
    Some (0, LogEvent "Clipboard content changed (Copy/Paste detected)." w)
  else if uMsg =? WM_DEVICECHANGE then
    if (wParam =? DBT_DEVICEARRIVAL) || (wParam =? DBT_DEVICEREMOVECOMPLETE)
    then
      match lParam with
      | None => Some (TRUE, w)
      | Some pHdr =>
          if dbch_devicetype pHdr =? DBT_DEVTYP_DEVICEINTERFACE then
            if IsEqualGUID (dbcc_classguid pHdr) GUID_DEVINTERFACE_USB_DEVICE
            then
              match narrow_device_path (dbcc_name pHdr) w with
              | None => None
              | Some (devPathA, w1) =>
                  if wParam =? DBT_DEVICEARRIVAL
                  then Some (TRUE,
                         LogEvent ("USB Device Plugged In: " ++ devPathA) w1)
                  else Some (TRUE,
                         LogEvent ("USB Device Removed: " ++ devPathA) w1)
              end
            else
              match narrow_device_path (dbcc_name pHdr) w with
              | None => None
              | Some (devPathA, w1) =>
                  if wParam =? DBT_DEVICEARRIVAL
                  then Some (TRUE,
                         LogEvent ("Non-USB Device Interface Arrival (Potential Driver/Software Install?): "
                                   ++ devPathA) w1)
                  else Some (TRUE,
                         LogEvent ("Non-USB Device Interface Removal: "
                                   ++ devPathA) w1)
              end
          else if dbch_devicetype pHdr =? DBT_DEVTYP_VOLUME then
            if wParam =? DBT_DEVICEARRIVAL then
              let driveLetter := DecodeDriveLetter (dbcv_unitmask pHdr) in
              Some (TRUE,
                    LogEvent ("Volume/Drive Mounted: "
                              ++ String driveLetter EmptyString ++ ":\") w)
            else if wParam =? DBT_DEVICEREMOVECOMPLETE then
              Some (TRUE, LogEvent "Volume/Drive Removed." w)
            else Some (TRUE, w)
          else Some (TRUE, w)
      end
    else Some (TRUE, w)
  else
    Some (DefWindowProc P hwnd uMsg wParam lParam,
          os_call (Call_DefWindowProc uMsg wParam) w).

(** How a call of the window procedure on a block ends. *)
Inductive Run :=
| Returned (r : Z) (w : World)
| Threw                            (* an exception left the procedure *)
| BadRead.                         (* it read outside the block *)

(** The window procedure with the payload as a block: the same text, each
    field read from the block at the moment the source reads it. *)
Definition WindowProc_raw (hwnd uMsg wParam : Z) (lParam : option Block)
           (w : World) : Run :=
  if uMsg =? WM_DESTROY then
    let w1 := LogEvent "Window destroyed, stopping message loop." w in
    let w2 := os_call (Call_PostQuitMessage 0) w1 in
    Returned 0 w2
  else if uMsg =? WM_CLIPBOARDUPDATE then
    Returned 0 (LogEvent "Clipboard content changed (Copy/Paste detected)." w)
  else if uMsg =? WM_DEVICECHANGE then
    if (wParam =? DBT_DEVICEARRIVAL) || (wParam =? DBT_DEVICEREMOVECOMPLETE)
    then
      match lParam with
      | None => Returned TRUE w
      | Some pHdr =>
          match read_DWORD pHdr 4 with                 (* dbch_devicetype *)
          | None => BadRead
          | Some devicetype =>
          if devicetype =? DBT_DEVTYP_DEVICEINTERFACE then
            match read_GUID pHdr 12 with               (* dbcc_classguid *)
            | None => BadRead
            | Some classguid =>
            if IsEqualGUID classguid GUID_DEVINTERFACE_USB_DEVICE
            then
              match read_wide_string pHdr 28 with      (* dbcc_name *)
              | None => BadRead
              | Some name =>
              match narrow_device_path name w with
              | None => Threw
              | Some (devPathA, w1) =>
                  if wParam =? DBT_DEVICEARRIVAL
                  then Returned TRUE
                         (LogEvent ("USB Device Plugged In: " ++ devPathA) w1)
                  else Returned TRUE
                         (LogEvent ("USB Device Removed: " ++ devPathA) w1)
              end
              end
            else
              match read_wide_string pHdr 28 with      (* dbcc_name *)
              | None => BadRead
              | Some name =>
              match narrow_device_path name w with
              | None => Threw
              | Some (devPathA, w1) =>
                  if wParam =? DBT_DEVICEARRIVAL
                  then Returned TRUE
                         (LogEvent ("Non-USB Device Interface Arrival (Potential Driver/Software Install?): "
                                    ++ devPathA) w1)
                  else Returned TRUE
                         (LogEvent ("Non-USB Device Interface Removal: "
                                    ++ devPathA) w1)
              end
              end
            end
          else if devicetype =? DBT_DEVTYP_VOLUME then
            if wParam =? DBT_DEVICEARRIVAL then
              match read_DWORD pHdr 12 with            (* dbcv_unitmask *)
              | None => BadRead
              | Some driveMask =>
                  let driveLetter := DecodeDriveLetter driveMask in
                  Returned TRUE
                    (LogEvent ("Volume/Drive Mounted: "
                               ++ String driveLetter EmptyString ++ ":\") w)
              end
            else if wParam =? DBT_DEVICEREMOVECOMPLETE then
              Returned TRUE (LogEvent "Volume/Drive Removed." w)
            else Returned TRUE w
          else Returned TRUE w
          end
      end
    else Returned TRUE w
  else
    Returned (DefWindowProc P hwnd uMsg wParam (option_map view lParam))
             (os_call (Call_DefWindowProc uMsg wParam) w).

(** ** Registration for device notifications *)

Definition RegisterDeviceNotifications (s : Session) (w : World)
  : bool * World :=
  let w0 := os_call Call_RegisterDeviceNotification w in
  match RegisterDeviceNotification_result s with
  | Failed lastError =>
      let w1 := os_call Call_GetLastError w0 in
      (false, LogError "RegisterDeviceNotification" lastError w1)
  | Succeeded _ =>
      (true, LogEvent "Successfully registered for device notifications." w0)
  end.

(** ** The directory of the executable

    [inr what] is an exception thrown by [current_path]. *)
Definition GetExecutableDirectory (s : Session) (w : World)
  : (string + string) * World :=
  let w0 := os_call Call_GetModuleFileNameW w in
  match GetModuleFileNameW_result s with
  | Failed error =>
      let w0 := os_call Call_GetLastError w0 in
      let w1 := put_cerr
        (mkLine "" ("FATAL: Failed to get executable path. Error code: "
                    ++ to_string error)) w0 in
      let w2 := LogError "GetExecutableDirectory/GetModuleFileNameW" error w1
      in (current_path_result s, w2)
  | Succeeded path => (inl (parent_path P path), w0)
  end.

(** ** The message loop *)

(** The window procedure run on messages the system sends directly. *)
Fixpoint deliver (hwnd : Z) (ms : list MSG) (w : World) : option World :=
  match ms with
  | [] => Some w
  | m :: rest =>
      match WindowProc hwnd (message m) (wParam m) (lParam m) w with
      | None => None
      | Some (_, w1) => deliver hwnd rest w1
      end
  end.

(** What the loop hands back: the last [msg] when [GetMessage] returned a
    value that is not positive; or the world at the moment the loop has
    entered the call of [GetMessage] that does not return. *)
Inductive LoopResult :=
| LoopEnded (msg : MSG) (w : World)
| LoopWaiting (w : World)
| LoopThrown.

(**
[[
    while (GetMessage(&msg, NULL, 0, 0) > 0) {
        TranslateMessage(&msg);
        DispatchMessage(&msg);
    }
]]
    [calls] are the calls of [GetMessage] that return; when they are used
    up the loop calls [GetMessage] once more and stays in it; the messages
    the system sends during that last call are in the session and are
    delivered where the loop is called, in [main_window].
    [DispatchMessage] runs the window procedure. *)
Fixpoint message_loop (calls : list GetMessageCall) (w : World) : LoopResult :=
  match calls with
  | [] => LoopWaiting (os_call Call_GetMessage w)
  | c :: rest =>
      let w0 := os_call Call_GetMessage w in
      match deliver (g_hwnd w0) (sent_during c) w0 with
      | None => LoopThrown
      | Some w1 =>
          if 0 <? gm_return c then
            let m := gm_msg c in
            let w1 := os_call Call_TranslateMessage w1 in
            let w1 := os_call Call_DispatchMessage w1 in
            match WindowProc (g_hwnd w1) (message m) (wParam m) (lParam m) w1
            with
            | None => LoopThrown
            | Some (_, w2) => message_loop rest w2
            end
          else LoopEnded (gm_msg c) w1
      end
  end.

(** ** [main] *)

(** Steps 4 and 5 of [main]: the two registrations. *)
Definition register_notifications (s : Session) (w : World) : World :=
  (* 4. clipboard notifications *)
  let w := os_call Call_AddClipboardFormatListener w in
  let w :=
    match AddClipboardFormatListener_result s with
    | Failed e =>
        let w := os_call Call_GetLastError w in
        let w := LogError "AddClipboardFormatListener" e w in
        LogEvent "WARNING: Failed to register clipboard listener. Copy/Paste events will not be logged." w
    | Succeeded _ => LogEvent "Successfully registered clipboard listener." w
    end in
  (* 5. device notifications *)
  let (registered, w) := RegisterDeviceNotifications s w in
  if negb registered
  then LogEvent "WARNING: Failed to register device notifications. USB/Device events may not be logged accurately." w
  else w.

(** The end of [main], reached when the loop is left with [msg]. *)
Definition cleanup (s : Session) (msg : MSG) (w : World) : Outcome :=
  let w := LogEvent "--- SecurityMonitor Stopping ---" w in
  let w := os_call Call_RemoveClipboardFormatListener w in
  let w := os_call Call_DestroyWindow w in
  match deliver (g_hwnd w) (DestroyWindow_sends s) w with
  | None => Thrown
  | Some w =>
      let w := if is_open (g_logFile w) then close_log w else w in
      Exited (to_int (wParam msg)) w
  end.

(** Steps 3 to 6 of [main] and its end. *)
Definition main_window (s : Session) (w : World) : Outcome :=
  (* 3. the message-only window *)
  let w := os_call Call_GetModuleHandle w in
  let w := os_call Call_RegisterClassW w in
  match RegisterClassW_result s with
  | Failed e =>
      let w := os_call Call_GetLastError w in
      let w := LogError "RegisterClassW" e w in
      Exited 1 (close_log w)
  | Succeeded _ =>
  let w := os_call Call_GetModuleHandle w in
  let w := os_call Call_CreateWindowExW w in
  match CreateWindowExW_result s with
  | Failed e =>
      let w := os_call Call_GetLastError w in
      let w := LogError "CreateWindowExW (Message Window)" e w in
      Exited 1 (close_log w)
  | Succeeded hwnd =>
  let w := set_hwnd hwnd w in
  let w := LogEvent "Message-only window created successfully." w in
  let w := register_notifications s w in
  (* 6. message loop *)
  let w := LogEvent "Starting message loop. Monitoring active..." w in
  match message_loop (GetMessage_calls s) w with
  | LoopThrown => Thrown
  | LoopWaiting w =>
      (* inside the call of GetMessage that does not return *)
      match deliver (g_hwnd w) (GetMessage_blocked_sends s) w with
      | None => Thrown
      | Some w => Waiting w
      end
  | LoopEnded msg w => cleanup s msg w
  end
  end
  end.

(** Steps 1 and 2 of [main], then the rest. *)
Definition main (s : Session) : Outcome :=
  let w := initial_World in
  (* 1. executable directory and log file path *)
  match GetExecutableDirectory s w with
  | (inr what, w) =>
      Exited 1 (put_cerr
        (mkLine "" ("FATAL: Could not determine executable directory: "
                    ++ what)) w)
  | (inl projectDir, w) =>
  let w := set_logFilePath (path_append P projectDir g_logFileName) w in
  let w := put_cout
    (mkLine "" ("Project Directory (Executable Location): " ++ projectDir)) w
  in
  let w := put_cout (mkLine "" ("Log file path: " ++ g_logFilePath w)) w in
  (* 2. open the log file *)
  if negb (log_open_result s) then
    let (ts, w) := GetTimestamp w in
    Exited 1 (put_cerr
      (mkLine ts ("FATAL: Could not open log file: " ++ g_logFilePath w)) w)
  else
  let w := set_logFile
             (mkStream true false (log_earlier s) (written (g_logFile w))
                       "" "") w in
  let w := LogEvent "--- SecurityMonitor Started ---" w in
  let w := LogEvent ("Project Directory: " ++ projectDir) w in
  main_window s w
  end.

End Program.

(** ** A concrete platform

    Used to run the definitions on concrete inputs.  The conversion encodes
    each UTF-16 code unit below [0x800] as UTF-8 (one or two bytes) and any
    other unit in three bytes; as the platform function does, it returns 0
    for an empty source and for a buffer that is too small, and only the
    required size when [cbMultiByte] is 0. *)

Definition utf8_unit (c : Z) : list ascii :=
  if c <? 0x80 then [char_of_int c]
  else if c <? 0x800 then
    [char_of_int (0xC0 + Z.shiftr c 6); char_of_int (0x80 + Z.land c 0x3F)]
  else
    [char_of_int (0xE0 + Z.shiftr c 12);
     char_of_int (0x80 + Z.land (Z.shiftr c 6) 0x3F);
     char_of_int (0x80 + Z.land c 0x3F)].

Definition utf8_WideCharToMultiByte (src : list Z) (cb : Z)
  : Z * list ascii :=
  let bytes := flat_map utf8_unit src in
  let n := Z.of_nat (List.length bytes) in
  match src with
  | [] => (0, [])
  | _ => if cb =? 0 then (n, [])
         else if cb <? n then (0, [])
         else (n, bytes)
  end.

Definition demo_platform : Platform :=
  mkPlatform (fun k => inl ("[tick " ++ to_string (Z.of_nat k) ++ "] "))%string
             (fun e => "error text")
             utf8_WideCharToMultiByte
             (fun _ _ _ _ => 0)
             (fun _ => true)
             (fun _ => 0%nat)
             (fun _ => 0%nat)
             (fun p => p)
             (fun d f => d ++ "\" ++ f)%string.

(** The same platform with a disk that takes one line and then refuses, with
    the first five characters of the refused line reaching the file. *)
Definition full_disk_platform : Platform :=
  mkPlatform (timestamp_at demo_platform) (FormatMessageA demo_platform)
             (WideCharToMultiByte demo_platform) (DefWindowProc demo_platform)
             (fun n => (n <? 1)%nat)
             (fun _ => 5%nat)
             (fun _ => 0%nat)
             (parent_path demo_platform) (path_append demo_platform).

(** The same platform with a clock whose reading throws. *)
Definition broken_clock_platform : Platform :=
  mkPlatform (fun _ => inr "bad time"%string) (FormatMessageA demo_platform)
             (WideCharToMultiByte demo_platform) (DefWindowProc demo_platform)
             (disk_accepts demo_platform) (disk_partial demo_platform)
             (close_partial demo_platform)
             (parent_path demo_platform) (path_append demo_platform).


(** ** Observations on a world *)

Definition console_texts (w : World) : list string := map text (cout w).

Definition file_texts (w : World) : list string :=
  map text (written (g_logFile w)).

(** The log stream is open and has not failed. *)
Definition sink_ready (w : World) : Prop :=
  is_open (g_logFile w) = true /\ failbit (g_logFile w) = false.

(** The disk takes every write. *)
Definition healthy (P : Platform) : Prop :=
  forall n, disk_accepts P n = true.

(** The timestamp prefix of the [k]-th reading of the clock. *)
Definition stamp_at (P : Platform) (k : nat) : string :=
  match timestamp_at P k with
  | inl ts => ts
  | inr _ => "[TIMESTAMP_ERROR] "
  end.

(** What [GetTimestamp] sends to [std::cerr] at the [k]-th reading. *)
Definition clock_report (P : Platform) (k : nat) : list Line :=
  match timestamp_at P k with
  | inl _ => []
  | inr what => [mkLine "" ("Error getting timestamp: " ++ what)]
  end.

(** No reading of the clock throws. *)
Definition clock_works (P : Platform) : Prop :=
  forall k, exists ts, timestamp_at P k = inl ts.

(** The documented range of the size query of [WideCharToMultiByte]: the
    number of bytes required, or 0 on failure. *)
Definition size_query_nonneg (P : Platform) : Prop :=
  forall src, 0 <= fst (WideCharToMultiByte P src 0).

(** Going from [w] to [w'] the program logged the texts [ts], in this order:
    they were appended to the console, and to the log file as well when the
    stream was usable and the disk takes every write. *)
Definition emits (P : Platform) (w w' : World) (ts : list string) : Prop :=
  console_texts w' = console_texts w ++ ts /\
  (healthy P -> sink_ready w ->
   file_texts w' = file_texts w ++ ts /\ sink_ready w').

(** The same without the promise that the stream is still usable in [w']. *)
Definition logged (P : Platform) (w w' : World) (ts : list string) : Prop :=
  console_texts w' = console_texts w ++ ts /\
  (healthy P -> sink_ready w -> file_texts w' = file_texts w ++ ts).

(** The message stored by the call of [GetMessage] that ends the loop. *)
Fixpoint final_msg (calls : list GetMessageCall) : option MSG :=
  match calls with
  | [] => None
  | c :: rest => if 0 <? gm_return c then final_msg rest else Some (gm_msg c)
  end.

(** The calls into the system made from [w] to [w']. *)
Definition calls_made (w w' : World) (cs : list OsCall) : Prop :=
  os_calls w' = os_calls w ++ cs.

(** The texts the window procedure logs for a message, read off a run from
    the initial world. *)
Definition logged_by (P : Platform) (m : MSG) : list string :=
  match WindowProc P 0 (message m) (wParam m) (lParam m) initial_World with
  | Some (_, w) => console_texts w
  | None => []
  end.

(** The path text the conversion yields for a device name. *)
Definition decoded_path (P : Platform) (name : list Z) : option string :=
  option_map fst (narrow_device_path P name initial_World).

(** The messages a list of [GetMessage] calls hands to the window procedure,
    in the order of delivery, up to the call that ends the loop. *)
Fixpoint delivered (calls : list GetMessageCall) : list MSG :=
  match calls with
  | [] => []
  | c :: rest =>
      if 0 <? gm_return c
      then sent_during c ++ gm_msg c :: delivered rest
      else sent_during c
  end.

(** ** Reading a logged text *)

(** [t] begins with [opening]. *)
Fixpoint starts_with (opening t : string) : bool :=
  match opening with
  | EmptyString => true
  | String a opening' =>
      match t with
      | EmptyString => false
      | String b t' => Ascii.eqb a b && starts_with opening' t'
      end
  end.

Definition says_usb (t : string) : bool := starts_with "USB Device " t.
Definition says_non_usb (t : string) : bool :=
  starts_with "Non-USB Device Interface " t.
Definition says_interface_arrival (t : string) : bool :=
  starts_with "USB Device Plugged In: " t
  || starts_with "Non-USB Device Interface Arrival " t.
Definition says_interface_removal (t : string) : bool :=
  starts_with "USB Device Removed: " t
  || starts_with "Non-USB Device Interface Removal: " t.
Definition says_warning (t : string) : bool := starts_with "WARNING: " t.
Definition says_clipboard (t : string) : bool :=
  String.eqb t "Clipboard content changed (Copy/Paste detected).".

(** The opening words of the lines the window procedure writes. *)
Definition event_openings : list string :=
  [ "Window destroyed, stopping message loop.";
    "Clipboard content changed (Copy/Paste detected).";
    "USB Device Plugged In: ";
    "USB Device Removed: ";
    "Non-USB Device Interface Arrival (Potential Driver/Software Install?): ";
    "Non-USB Device Interface Removal: ";
    "Volume/Drive Mounted: ";
    "Volume/Drive Removed." ].

Definition well_formed_event (t : string) : bool :=
  existsb (fun opening => starts_with opening t) event_openings.

(** ['A' + i] as a character. *)
Definition letter_at (i : Z) : ascii :=
  ascii_of_nat (nat_of_ascii "A" + Z.to_nat i).

(** The calls into the system the window procedure makes for a message, read
    off a run from the initial world. *)
Definition calls_by (P : Platform) (m : MSG) : list OsCall :=
  match WindowProc P 0 (message m) (wParam m) (lParam m) initial_World with
  | Some (_, w) => os_calls w
  | None => []
  end.

Definition is_DefWindowProc (c : OsCall) : bool :=
  match c with Call_DefWindowProc _ _ => true | _ => false end.

(** The result of the procedure on a record, as a [Run]. *)
Definition run_of (r : option (Z * World)) : Run :=
  match r with
  | Some (r, w) => Returned r w
  | None => Threw
  end.

Definition name_terminated (b : Block) : bool :=
  match read_wide_string b 28 with Some _ => true | None => false end.

(** The block holds all that the structure announced by its device type is
    read for: the header up to the device type; for a device interface the
    class identifier and a name terminated inside the block; for a volume
    arrival the unit mask.  (A message that is no device arrival or removal
    has no payload that is read.) *)
Definition payload_readable (uMsg wParam : Z) (lParam : option Block) : bool :=
  match lParam with
  | None => true
  | Some b =>
      if (uMsg =? WM_DEVICECHANGE)
         && ((wParam =? DBT_DEVICEARRIVAL)
             || (wParam =? DBT_DEVICEREMOVECOMPLETE))
      then
        (8 <=? List.length b)%nat
        && (if dbch_devicetype (view b) =? DBT_DEVTYP_DEVICEINTERFACE
            then (28 <=? List.length b)%nat && name_terminated b
            else if dbch_devicetype (view b) =? DBT_DEVTYP_VOLUME
            then if wParam =? DBT_DEVICEARRIVAL
                 then (16 <=? List.length b)%nat else true
            else true)
      else true
  end.

(** The message is a device-interface arrival or removal and the size query
    of the conversion of its name answers a negative value. *)
Definition conversion_refused (P : Platform) (m : MSG) : bool :=
  (message m =? WM_DEVICECHANGE)
  && ((wParam m =? DBT_DEVICEARRIVAL)
      || (wParam m =? DBT_DEVICEREMOVECOMPLETE))
  && match lParam m with
     | None => false
     | Some pHdr =>
         (dbch_devicetype pHdr =? DBT_DEVTYP_DEVICEINTERFACE)
         && (fst (WideCharToMultiByte P (wstring_of (dbcc_name pHdr)) 0) <? 0)
     end.

(** Inputs used in the examples. *)
Definition usb_arrival_hdr : DEV_BROADCAST_HDR :=
  mkHDR 32 DBT_DEVTYP_DEVICEINTERFACE 0 GUID_DEVINTERFACE_USB_DEVICE
        [92; 92; 63; 92; 85; 83; 66; 35; 86; 73; 68; 95; 49; 50; 51; 52; 0]
        0 0.

Definition other_guid : GUID :=
  mkGUID 0x4D36E967 0xE325 0x11CE
         [0xBF; 0xC1; 0x08; 0x00; 0x2B; 0xE1; 0x03; 0x18].

Definition nameless_hdr : DEV_BROADCAST_HDR :=
  mkHDR 32 DBT_DEVTYP_DEVICEINTERFACE 0 other_guid [0] 0 0.

Definition volume_hdr (unitmask : Z) : DEV_BROADCAST_HDR :=
  mkHDR 18 DBT_DEVTYP_VOLUME 0 other_guid [] unitmask 0.

(** A payload of type [DBT_DEVTYP_PORT]. *)
Definition port_hdr : DEV_BROADCAST_HDR :=
  mkHDR 12 3 0 other_guid [] 0 0.

(** The bytes of a value, little-endian. *)
Fixpoint le_bytes (n : nat) (z : Z) : list Z :=
  match n with
  | O => []
  | S n' => z mod 256 :: le_bytes n' (z / 256)
  end.

(** The block of a [DEV_BROADCAST_DEVICEINTERFACE] with this class
    identifier and this name (terminator included in [name]). *)
Definition interface_block (g : GUID) (name : list Z) : Block :=
  le_bytes 4 (28 + 2 * Z.of_nat (List.length name))
  ++ le_bytes 4 DBT_DEVTYP_DEVICEINTERFACE ++ le_bytes 4 0
  ++ le_bytes 4 (Data1 g) ++ le_bytes 2 (Data2 g) ++ le_bytes 2 (Data3 g)
  ++ Data4 g
  ++ flat_map (le_bytes 2) name.

Definition usb_arrival_block : Block :=
  interface_block GUID_DEVINTERFACE_USB_DEVICE (dbcc_name usb_arrival_hdr).

(** The header alone of that block: it announces a device interface and
    ends after [dbch_reserved]. *)
Definition truncated_block : Block := firstn 12 usb_arrival_block.

(** That block without the NUL that ends the name. *)
Definition unterminated_block : Block :=
  firstn (List.length usb_arrival_block - 2) usb_arrival_block.

(** A platform whose size query answers a negative value. *)
Definition negative_size_platform : Platform :=
  mkPlatform (timestamp_at demo_platform) (FormatMessageA demo_platform)
             (fun _ _ => (-1, []))
             (DefWindowProc demo_platform)
             (disk_accepts demo_platform) (disk_partial demo_platform)
             (close_partial demo_platform)
             (parent_path demo_platform) (path_append demo_platform).

(** The text [LogError] logs. *)
Definition error_text (P : Platform) (context : string) (e : Z) : string :=
  "ERROR in " ++ context ++ ": " ++ FormatMessageA P e
  ++ " (Code: " ++ to_string e ++ ")".

(** The texts logged by the two registrations. *)
Definition registration_texts (P : Platform) (s : Session) : list string :=
  match AddClipboardFormatListener_result s with
  | Failed e =>
      [error_text P "AddClipboardFormatListener" e;
       "WARNING: Failed to register clipboard listener. Copy/Paste events will not be logged."]
  | Succeeded _ => ["Successfully registered clipboard listener."]
  end
  ++
  match RegisterDeviceNotification_result s with
  | Failed e =>
      [error_text P "RegisterDeviceNotification" e;
       "WARNING: Failed to register device notifications. USB/Device events may not be logged accurately."]
  | Succeeded _ => ["Successfully registered for device notifications."]
  end.

(** The texts logged after the calls of [GetMessage] that return: those of
    the messages sent during the call that does not return or, once the loop
    is left, the closing line and the texts of the messages sent while the
    window is destroyed. *)
Definition cleanup_texts (P : Platform) (s : Session) : list string :=
  match final_msg (GetMessage_calls s) with
  | None => flat_map (logged_by P) (GetMessage_blocked_sends s)
  | Some _ =>
      "--- SecurityMonitor Stopping ---"
      :: flat_map (logged_by P) (DestroyWindow_sends s)
  end.

(** The texts logged from the creation of the window on, when the window
    class and the window are created. *)
Definition run_texts (P : Platform) (s : Session) : list string :=
  ["Message-only window created successfully."]
  ++ registration_texts P s
  ++ ["Starting message loop. Monitoring active..."]
  ++ flat_map (logged_by P) (delivered (GetMessage_calls s))
  ++ cleanup_texts P s.

(** The directory [GetExecutableDirectory] yields, or [what()] of the
    exception it throws. *)
Definition project_dir (P : Platform) (s : Session) : string + string :=
  match GetModuleFileNameW_result s with
  | Succeeded path => inl (parent_path P path)
  | Failed _ => current_path_result s
  end.

(** How [main] ends when the start-up succeeds. *)
Definition loop_outcome (s : Session) (w : World) : Outcome :=
  match final_msg (GetMessage_calls s) with
  | None => Waiting w
  | Some m => Exited (to_int (wParam m)) w
  end.

(** Every message the window procedure is given during the run. *)
Definition handled (s : Session) : list MSG :=
  delivered (GetMessage_calls s)
  ++ match final_msg (GetMessage_calls s) with
     | None => GetMessage_blocked_sends s
     | Some _ => DestroyWindow_sends s
     end.

Definition count (f : string -> bool) (ts : list string) : nat :=
  List.length (filter f ts).

Definition is_clipboard_update (m : MSG) : bool :=
  message m =? WM_CLIPBOARDUPDATE.

(** The opening words of a device-interface line, by class and action. *)
Definition interface_opening (usb arrival : bool) : string :=
  match usb, arrival with
  | true, true => "USB Device Plugged In: "
  | true, false => "USB Device Removed: "
  | false, true =>
      "Non-USB Device Interface Arrival (Potential Driver/Software Install?): "
  | false, false => "Non-USB Device Interface Removal: "
  end.

(** Messages and sessions used in the examples. *)
Definition usb_arrival_msg : MSG :=
  mkMSG WM_DEVICECHANGE DBT_DEVICEARRIVAL (Some usb_arrival_hdr).

Definition clipboard_msg : MSG := mkMSG WM_CLIPBOARDUPDATE 0 None.

(** [WM_QUIT] with exit code 0. *)
Definition quit_msg : MSG := mkMSG 0x0012 0 None.

Definition demo_calls : list GetMessageCall :=
  [ mkGetMessage [usb_arrival_msg] 1 clipboard_msg;
    mkGetMessage [] 1 clipboard_msg;
    mkGetMessage [] 0 quit_msg ].

(** Every start-up call succeeds but the registration for device
    notifications. *)
Definition demo_session : Session :=
  mkSession (Succeeded "C:\app") (inl "C:\cwd") true
            ("[2025-01-01 10:00:00] WARNING: a line of an earlier run"
             ++ String (ascii_of_nat 10) "")
            (Succeeded tt) (Succeeded 77) (Succeeded tt) (Failed 5)
            demo_calls [] [mkMSG WM_DESTROY 0 None].

(** The path of the executable is not obtained and the current directory
    throws. *)
Definition no_directory_session : Session :=
  mkSession (Failed 2) (inr "current_path failed") true "" (Succeeded tt)
            (Succeeded 77) (Succeeded tt) (Succeeded tt) demo_calls [] [].

(** ** Primitive steps

    Inside the window procedure and the loop the world changes only through
    [LogEvent] and through calls into the system. *)

Inductive Step :=
| StepLog (msg : string)
| StepCall (c : OsCall).

Definition do_step (P : Platform) (st : Step) (w : World) : World :=
  match st with
  | StepLog msg => LogEvent P msg w
  | StepCall c => os_call c w
  end.

Fixpoint do_steps (P : Platform) (sts : list Step) (w : World) : World :=
  match sts with
  | [] => w
  | st :: rest => do_steps P rest (do_step P st w)
  end.

Definition step_texts (sts : list Step) : list string :=
  flat_map (fun st => match st with StepLog m => [m] | StepCall _ => [] end)
           sts.

Definition step_calls (sts : list Step) : list OsCall :=
  flat_map (fun st => match st with StepLog _ => [] | StepCall c => [c] end)
           sts.

(** Nothing that was written before is taken back: each stream and the
    record of calls keep what they held, the clock is not set back, and the
    log stream is neither opened nor closed nor repaired. *)
Definition grows (w w' : World) : Prop :=
  (exists l, written (g_logFile w') = written (g_logFile w) ++ l) /\
  (exists l, cout w' = cout w ++ l) /\
  (exists l, cerr w' = cerr w ++ l) /\
  (exists l, os_calls w' = os_calls w ++ l) /\
  (clock_reads w <= clock_reads w')%nat /\
  is_open (g_logFile w') = is_open (g_logFile w) /\
  g_hwnd w' = g_hwnd w /\
  g_logFilePath w' = g_logFilePath w /\
  (failbit (g_logFile w) = true -> failbit (g_logFile w') = true).

(** The text [LogEvent] sends to [cerr] for a line lost to a failed
    stream. *)
Definition write_failure_text (w : World) : string :=
  "FATAL: Failed to write to log file '" ++ g_logFilePath w ++ "'!".

Definition is_PostQuitMessage (c : OsCall) : bool :=
  match c with Call_PostQuitMessage _ => true | _ => false end.


(** How many of the two registrations failed. *)
Definition failed_registrations (s : Session) : nat :=
  (match AddClipboardFormatListener_result s with
   | Failed _ => 1 | Succeeded _ => 0 end
   + match RegisterDeviceNotification_result s with
     | Failed _ => 1 | Succeeded _ => 0 end)%nat.

Definition says_error (t : string) : bool := starts_with "ERROR in " t.

(** The lines of the texts [ts] when the clock is read once for each,
    starting at its [k]-th reading. *)
Fixpoint stamp_from (P : Platform) (k : nat) (ts : list string) : list Line :=
  match ts with
  | [] => []
  | t :: rest => mkLine (stamp_at P k) t :: stamp_from P (S k) rest
  end.

(** Worlds used in the examples: the log stream open and usable, and the
    log stream open after a failed write. *)
Definition open_World : World :=
  mkWorld (mkStream true false "" [] "" "")
          "C:\app\SecurityMonitorLog.txt" 77 [] [] 0 [].

Definition failed_World : World :=
  mkWorld (mkStream true true "" [] "[tick" " 0] a refused line")
          "C:\app\SecurityMonitorLog.txt" 77 [] [] 0 [].

(** The calls into the system the loop makes: one [GetMessage] for each
    iteration, followed by the calls of the window procedure for the
    messages sent during that call and for the message it retrieved. *)
Fixpoint loop_calls (P : Platform) (calls : list GetMessageCall)
  : list OsCall :=
  match calls with
  | [] => [Call_GetMessage]
  | c :: rest =>
      Call_GetMessage
      :: flat_map (calls_by P) (sent_during c)
      ++ (if 0 <? gm_return c
          then Call_TranslateMessage :: Call_DispatchMessage
               :: calls_by P (gm_msg c) ++ loop_calls P rest
          else [])
  end.

(** The calls made after the calls of [GetMessage] that return. *)
Definition cleanup_calls (P : Platform) (s : Session) : list OsCall :=
  match final_msg (GetMessage_calls s) with
  | None => flat_map (calls_by P) (GetMessage_blocked_sends s)
  | Some _ =>
      [Call_RemoveClipboardFormatListener; Call_DestroyWindow]
      ++ flat_map (calls_by P) (DestroyWindow_sends s)
  end.

(** The calls [LogError] makes. *)
Definition error_calls (e : Z) : list OsCall :=
  [Call_GetLastError; Call_FormatMessageA e; Call_LocalFree].

(** The calls of the two registrations. *)
Definition registration_calls (s : Session) : list OsCall :=
  Call_AddClipboardFormatListener
  :: match AddClipboardFormatListener_result s with
     | Failed e => error_calls e
     | Succeeded _ => []
     end
  ++ Call_RegisterDeviceNotification
  :: match RegisterDeviceNotification_result s with
     | Failed e => error_calls e
     | Succeeded _ => []
     end.

(** The calls of [GetExecutableDirectory]. *)
Definition directory_calls (s : Session) : list OsCall :=
  Call_GetModuleFileNameW
  :: match GetModuleFileNameW_result s with
     | Failed e => error_calls e
     | Succeeded _ => []
     end.

(** The calls that create the window class and the window. *)
Definition window_calls : list OsCall :=
  [Call_GetModuleHandle; Call_RegisterClassW;
   Call_GetModuleHandle; Call_CreateWindowExW].

(** The world [main] ends with, given the world after the last message
    handled: the log stream is closed when the loop was left. *)
Definition end_world (P : Platform) (s : Session) (w : World) : World :=
  match final_msg (GetMessage_calls s) with
  | None => w
  | Some _ => if is_open (g_logFile w) then close_log P w else w
  end.




(** A run in which no call of [GetMessage] returns: a clipboard update is
    sent while the first call waits. *)
Definition waiting_session : Session :=
  mkSession (Succeeded "C:\app") (inl "C:\cwd") true ""
            (Succeeded tt) (Succeeded 77) (Succeeded tt) (Succeeded tt)
            [] [clipboard_msg] [].

(** What the loop hands back for a list of calls. *)
Definition loop_result_of (calls : list GetMessageCall) (w' : World)
  : LoopResult :=
  match final_msg calls with
  | None => LoopWaiting w'
  | Some m => LoopEnded m w'
  end.

(** * Properties *)

Section Sink.

Variable P : Platform.

Lemma emits_refl (w : World) : emits P w w [].
Proof.
  unfold emits. rewrite !app_nil_r. auto.
Qed.

Lemma emits_trans (w1 w2 w3 : World) (a b : list string) :
  emits P w1 w2 a -> emits P w2 w3 b -> emits P w1 w3 (a ++ b).
Proof.
  intros (Hc1 & Hf1) (Hc2 & Hf2).
  unfold emits. rewrite Hc2, Hc1, !app_assoc.
  split; trivial. intros Hd Hr.
  destruct (Hf1 Hd Hr) as [E1 R1]. destruct (Hf2 Hd R1) as [E2 R2].
  now rewrite E2, E1.
Qed.

Lemma emits_os_call (c : OsCall) (w : World) : emits P w (os_call c w) [].
Proof.
  unfold emits, console_texts, file_texts, sink_ready. cbn.
  rewrite !app_nil_r. auto.
Qed.

Lemma GetTimestamp_eq (w : World) :
  GetTimestamp P w
  = (stamp_at P (clock_reads w),
     mkWorld (g_logFile w) (g_logFilePath w) (g_hwnd w) (cout w)
             (cerr w ++ clock_report P (clock_reads w))
             (S (clock_reads w)) (os_calls w)).
Proof.
  unfold GetTimestamp, stamp_at, clock_report.
  destruct (timestamp_at P (clock_reads w)); cbn; [|reflexivity].
  now rewrite app_nil_r.
Qed.

(** [LogEvent] written out: the line always goes to the console; it goes to
    the file when the stream is open and takes it; a stream that is not open
    or has failed costs a second reading of the clock and a line on the
    error stream. *)
Lemma LogEvent_eq (msg : string) (w : World) :
  LogEvent P msg w
  = let k := clock_reads w in
    let line := mkLine (stamp_at P k) msg in
    if is_open (g_logFile w) then
      let f := stream_put (disk_accepts P) (disk_partial P) line
                          (g_logFile w) in
      if failbit f then
        mkWorld f (g_logFilePath w) (g_hwnd w) (cout w ++ [line])
                ((cerr w ++ clock_report P k) ++ clock_report P (S k)
                 ++ [mkLine (stamp_at P (S k))
                            ("FATAL: Failed to write to log file '"
                             ++ g_logFilePath w ++ "'!")])
                (S (S k)) (os_calls w)
      else
        mkWorld f (g_logFilePath w) (g_hwnd w) (cout w ++ [line])
                (cerr w ++ clock_report P k) (S k) (os_calls w)
    else
      mkWorld (g_logFile w) (g_logFilePath w) (g_hwnd w) (cout w ++ [line])
              ((cerr w ++ clock_report P k) ++ clock_report P (S k)
               ++ [mkLine (stamp_at P (S k))
                          ("ERROR: Log file is not open. Cannot log: "
                           ++ msg)])
              (S (S k)) (os_calls w).
Proof.
  destruct w as [f path h co ce k oc].
  unfold LogEvent, GetTimestamp, stamp_at, clock_report.
  cbn -[stream_put].
  destruct (timestamp_at P k) as [ts|what]; cbn -[stream_put];
    (destruct (is_open f); cbn -[stream_put];
     [destruct (failbit (stream_put _ _ _ f)) eqn:Hf;
      cbn -[stream_put]; rewrite ?Hf |];
     try (destruct (timestamp_at P (S k)); cbn -[stream_put]);
     unfold put_cerr, put_cout, tick, set_logFile; cbn -[stream_put];
     rewrite <- ?app_assoc; cbn [app]; rewrite ?app_nil_r;
     reflexivity).
Qed.

Lemma LogEvent_cout (msg : string) (w : World) :
  cout (LogEvent P msg w)
  = cout w ++ [mkLine (stamp_at P (clock_reads w)) msg].
Proof.
  rewrite LogEvent_eq. cbv zeta.
  destruct (is_open (g_logFile w)); [|reflexivity].
  destruct (failbit (stream_put _ _ _ _)); reflexivity.
Qed.

Lemma LogEvent_os_calls (msg : string) (w : World) :
  os_calls (LogEvent P msg w) = os_calls w.
Proof.
  rewrite LogEvent_eq. cbv zeta.
  destruct (is_open (g_logFile w)); [|reflexivity].
  destruct (failbit (stream_put _ _ _ _)); reflexivity.
Qed.

Lemma LogEvent_g_logFile (msg : string) (w : World) :
  g_logFile (LogEvent P msg w)
  = if is_open (g_logFile w)
    then stream_put (disk_accepts P) (disk_partial P)
                    (mkLine (stamp_at P (clock_reads w)) msg) (g_logFile w)
    else g_logFile w.
Proof.
  rewrite LogEvent_eq. cbv zeta.
  destruct (is_open (g_logFile w)); [|reflexivity].
  destruct (failbit (stream_put _ _ _ _)); reflexivity.
Qed.

Lemma LogEvent_file (msg : string) (w : World) :
  healthy P -> sink_ready w ->
  g_logFile (LogEvent P msg w)
  = mkStream true false (earlier (g_logFile w))
      (written (g_logFile w) ++ [mkLine (stamp_at P (clock_reads w)) msg])
      (torn (g_logFile w)) (pending (g_logFile w)).
Proof.
  intros Hd [Ho Hf]. rewrite LogEvent_g_logFile, Ho.
  unfold stream_put. rewrite Hf, Hd, Ho. reflexivity.
Qed.

Lemma LogEvent_emits (msg : string) (w : World) :
  emits P w (LogEvent P msg w) [msg].
Proof.
  unfold emits, console_texts, file_texts.
  rewrite LogEvent_cout, map_app.
  split; [reflexivity|].
  intros Hd Hr. unfold sink_ready.
  rewrite (LogEvent_file msg w Hd Hr). cbn [written is_open failbit].
  rewrite map_app. auto.
Qed.

Lemma LogError_eq (context : string) (e : Z) (w : World) :
  LogError P context e w
  = LogEvent P (error_text P context e)
      (os_call Call_LocalFree (os_call (Call_FormatMessageA e) w)).
Proof. reflexivity. Qed.

Lemma LogError_os_calls (context : string) (e : Z) (w : World) :
  os_calls (LogError P context e w)
  = (os_calls w ++ [Call_FormatMessageA e]) ++ [Call_LocalFree].
Proof. rewrite LogError_eq, LogEvent_os_calls. reflexivity. Qed.

End Sink.

Section Window.

Variable P : Platform.

Lemma emits_then_call (w w0 : World) (ts : list string) (c : OsCall) :
  emits P w w0 ts -> emits P w (os_call c w0) ts.
Proof.
  intros H. rewrite <- (app_nil_r ts).
  eapply emits_trans; [exact H | apply emits_os_call].
Qed.

Lemma emits_then_log (w w0 : World) (ts : list string) (msg : string) :
  emits P w w0 ts -> emits P w (LogEvent P msg w0) (ts ++ [msg]).
Proof.
  intros H. eapply emits_trans; [exact H | apply LogEvent_emits].
Qed.

Lemma emits_one_log (w w0 : World) (msg : string) :
  emits P w w0 [] -> emits P w (LogEvent P msg w0) [msg].
Proof. apply (emits_then_log w w0 [] msg). Qed.

(** The conversion touches the world only through the record of its two
    calls; its result does not depend on the world. *)
Lemma narrow_device_path_run (name : list Z) (w : World) :
  narrow_device_path P name w =
  match decoded_path P name with
  | None => None
  | Some s =>
      Some (s,
            os_call (Call_WideCharToMultiByte (wstring_of name)
                       (fst (WideCharToMultiByte P (wstring_of name) 0)))
              (os_call (Call_WideCharToMultiByte (wstring_of name) 0) w))
  end.
Proof.
  unfold decoded_path, narrow_device_path.
  destruct (string_fill _ _); reflexivity.
Qed.

Lemma decoded_path_total (name : list Z) :
  size_query_nonneg P -> exists s, decoded_path P name = Some s.
Proof.
  intros Hq. unfold decoded_path, narrow_device_path, string_fill.
  specialize (Hq (wstring_of name)).
  destruct (Z.ltb_spec (fst (WideCharToMultiByte P (wstring_of name) 0)) 0);
    [lia|]. cbn. eauto.
Qed.

Lemma decoded_path_size_zero (name : list Z) :
  fst (WideCharToMultiByte P (wstring_of name) 0) = 0 ->
  decoded_path P name = Some EmptyString.
Proof.
  intros E. unfold decoded_path, narrow_device_path. rewrite E. reflexivity.
Qed.

(** Whatever the world, the window procedure logs what [logged_by] says. *)
Lemma WindowProc_emits (hwnd uMsg wPar : Z) (lPar : LPARAM) (w w' : World)
      (r : Z) :
  WindowProc P hwnd uMsg wPar lPar w = Some (r, w') ->
  emits P w w' (logged_by P (mkMSG uMsg wPar lPar)).
Proof.
  unfold logged_by, WindowProc. cbn [message wParam lParam].
  destruct lPar as [pHdr|]; rewrite ?narrow_device_path_run;
    [destruct (decoded_path P (dbcc_name pHdr)) as [s|]|];
    repeat match goal with
           | |- context [if ?b then _ else _] => destruct b
           end;
    intros H; inversion H; subst; clear H;
    unfold console_texts; cbn [os_call cout]; rewrite ?LogEvent_cout; cbn [map cout app initial_World os_call text];
    repeat first [ apply emits_refl | apply emits_one_log
                 | apply emits_then_call ].
Qed.

(** The procedure returns unless the size query answers a negative value. *)
Lemma WindowProc_returns (hwnd uMsg wPar : Z) (lPar : LPARAM) (w : World) :
  size_query_nonneg P ->
  exists r w', WindowProc P hwnd uMsg wPar lPar w = Some (r, w').
Proof.
  intros Hq. unfold WindowProc.
  destruct lPar as [pHdr|]; rewrite ?narrow_device_path_run;
    [destruct (decoded_path_total (dbcc_name pHdr) Hq) as [s ->]|];
    repeat match goal with
           | |- context [if ?b then _ else _] => destruct b
           end; eauto.
Qed.

End Window.

(** Follows a chain of [LogEvent] and [os_call] steps. *)
Ltac emits_chain :=
  repeat lazymatch goal with
  | |- emits _ ?w ?w [] => apply emits_refl
  | |- emits _ _ (os_call _ _) _ => apply emits_then_call
  | |- emits _ _ (LogEvent _ _ _) [_] => apply emits_one_log
  | |- emits _ _ (LogEvent _ _ _) [?a; _] =>
      apply (emits_then_log _ _ _ [a])
  | |- emits _ _ (LogEvent _ _ _) [?a; ?b; _] =>
      apply (emits_then_log _ _ _ [a; b])
  | |- emits _ _ (LogEvent _ _ _) [?a; ?b; ?c; _] =>
      apply (emits_then_log _ _ _ [a; b; c])
  end.

(** ** The unit-mask scan *)

Lemma char_of_int_letter (i : Z) :
  0 <= i < 26 -> char_of_int (65 + i) = letter_at i.
Proof.
  intros H. unfold char_of_int, letter_at.
  rewrite Z.mod_small by lia.
  change (nat_of_ascii "A") with 65%nat.
  unfold ascii_of_nat. f_equal. lia.
Qed.

Lemma land_single_bit (m i : Z) :
  0 <= i -> (Z.land m (Z.shiftl 1 i) =? 0) = negb (Z.testbit m i).
Proof.
  intros Hi. rewrite Z.shiftl_1_l.
  destruct (Z.testbit m i) eqn:Hb; cbn.
  - apply Z.eqb_neq. intros E.
    assert (Hc : Z.testbit (Z.land m (2 ^ i)) i = true).
    { rewrite Z.land_spec, Hb, Z.pow2_bits_true; trivial. }
    rewrite E, Z.bits_0 in Hc. discriminate.
  - apply Z.eqb_eq. apply Z.bits_inj'. intros n Hn.
    rewrite Z.land_spec, Z.bits_0, Z.pow2_bits_eqb by lia.
    destruct (Z.eqb_spec i n) as [->|]; [rewrite Hb|]; auto using andb_false_r.
Qed.

(** The scan stops at the first set bit at or after [i]. *)
Lemma scan_unitmask_hit (r : nat) : forall (i k mask : Z),
  0 <= i <= k -> k < i + Z.of_nat r ->
  Z.testbit mask k = true ->
  (forall j, i <= j < k -> Z.testbit mask j = false) ->
  scan_unitmask r i mask = char_of_int (65 + k).
Proof.
  induction r as [|r IH]; intros i k mask Hik Hk Hbit Hlow; [lia|].
  cbn [scan_unitmask]. rewrite land_single_bit, negb_involutive by lia.
  destruct (Z.eq_dec i k) as [->|Hne].
  - now rewrite Hbit.
  - rewrite Hlow by lia. apply IH; try lia; trivial.
    intros j Hj. apply Hlow. lia.
Qed.

(** With no bit set in the scanned range the sentinel is kept. *)
Lemma scan_unitmask_miss (r : nat) : forall (i mask : Z),
  0 <= i ->
  (forall j, i <= j < i + Z.of_nat r -> Z.testbit mask j = false) ->
  scan_unitmask r i mask = "?"%char.
Proof.
  induction r as [|r IH]; intros i mask Hi Hnone; [reflexivity|].
  cbn [scan_unitmask]. rewrite land_single_bit, negb_involutive by lia.
  rewrite Hnone by lia. apply IH; [lia|].
  intros j Hj. apply Hnone. lia.
Qed.

Lemma bit_below_26 (mask k : Z) :
  0 <= mask < 2 ^ 26 -> Z.testbit mask k = true -> 0 <= k < 26.
Proof.
  intros Hm Hb. split.
  - destruct (Z.neg_nonneg_cases k) as [Hneg|]; trivial.
    rewrite Z.testbit_neg_r in Hb by trivial. discriminate.
  - destruct (Z.lt_ge_cases k 26) as [|Hge]; trivial.
    destruct (Z.eq_dec mask 0) as [->|Hnz].
    + rewrite Z.bits_0 in Hb. discriminate.
    + rewrite Z.bits_above_log2 in Hb; [discriminate|lia|].
      assert (Z.log2 mask < 26) by (apply Z.log2_lt_pow2; lia). lia.
Qed.

Lemma DecodeDriveLetter_lowest (mask i : Z) :
  0 <= mask < 2 ^ 26 ->
  Z.testbit mask i = true ->
  (forall j, 0 <= j < i -> Z.testbit mask j = false) ->
  DecodeDriveLetter mask = letter_at i.
Proof.
  intros Hm Hb Hl. pose proof (bit_below_26 mask i Hm Hb) as Hi.
  rewrite <- char_of_int_letter by trivial.
  apply scan_unitmask_hit; trivial; cbn; lia.
Qed.

Lemma DecodeDriveLetter_zero : DecodeDriveLetter 0 = "?"%char.
Proof.
  apply scan_unitmask_miss; [lia|]. intros j _. apply Z.bits_0.
Qed.

(** C2: for every 26-bit unit mask the decoded letter is fixed by the lowest
    set bit: an all-zero mask gives the sentinel ['?'], a mask with the single
    bit [i] gives ['A' + i], and in general the lowest set bit [i] gives
    ['A' + i]. *)
Theorem C2_drive_letter_lowest_set_bit (mask : Z) :
  0 <= mask < 2 ^ 26 ->
  (mask = 0 -> DecodeDriveLetter mask = "?"%char) /\
  (forall i, 0 <= i < 26 -> mask = 2 ^ i ->
             DecodeDriveLetter mask = letter_at i) /\
  (forall i, Z.testbit mask i = true ->
             (forall j, 0 <= j < i -> Z.testbit mask j = false) ->
             DecodeDriveLetter mask = letter_at i).
Proof.
  intros Hm. split; [|split].
  - intros ->. apply DecodeDriveLetter_zero.
  - intros i Hi E. apply DecodeDriveLetter_lowest; trivial; subst mask.
    + apply Z.pow2_bits_true. lia.
    + intros j Hj. rewrite Z.pow2_bits_false; trivial. lia.
  - intros i. now apply DecodeDriveLetter_lowest.
Qed.

(** ** Comparison of class identifiers *)

Lemma bytes_eqb_eq (a b : list Z) : bytes_eqb a b = true <-> a = b.
Proof.
  revert b. induction a as [|x a IH]; intros [|y b]; cbn;
    try (split; [discriminate|discriminate]); [tauto|].
  rewrite andb_true_iff, Z.eqb_eq, IH.
  split; [intros [-> ->]; reflexivity | intros E; inversion E; auto].
Qed.

Lemma IsEqualGUID_eq (a b : GUID) : IsEqualGUID a b = true <-> a = b.
Proof.
  unfold IsEqualGUID. rewrite !andb_true_iff, !Z.eqb_eq, bytes_eqb_eq.
  destruct a, b; cbn. split.
  - intros [[[-> ->] ->] ->]. reflexivity.
  - intros E. inversion E. auto.
Qed.

Section Classification.

Variable P : Platform.

Lemma calls_made_refl (w : World) : calls_made w w [].
Proof. unfold calls_made. now rewrite app_nil_r. Qed.

Lemma calls_made_log (w w0 : World) (cs : list OsCall) (msg : string) :
  calls_made w w0 cs -> calls_made w (LogEvent P msg w0) cs.
Proof. unfold calls_made. now rewrite LogEvent_os_calls. Qed.

Lemma calls_made_call (w w0 : World) (cs : list OsCall) (c : OsCall) :
  calls_made w w0 cs -> calls_made w (os_call c w0) (cs ++ [c]).
Proof. unfold calls_made. cbn. intros ->. now rewrite app_assoc. Qed.

(** Whatever the world, the window procedure makes the calls [calls_by]
    lists. *)
Lemma WindowProc_calls (hwnd uMsg wPar : Z) (lPar : LPARAM) (w w' : World)
      (r : Z) :
  WindowProc P hwnd uMsg wPar lPar w = Some (r, w') ->
  calls_made w w' (calls_by P (mkMSG uMsg wPar lPar)).
Proof.
  unfold calls_by, WindowProc. cbn [message wParam lParam].
  destruct lPar as [pHdr|]; rewrite ?narrow_device_path_run;
    [destruct (decoded_path P (dbcc_name pHdr)) as [s|]|];
    repeat match goal with
           | |- context [if ?b then _ else _] => destruct b
           end;
    intros H; inversion H; subst; clear H;
    cbn [os_call os_calls]; rewrite ?LogEvent_os_calls;
    cbn [os_calls app initial_World os_call];
    repeat first [ apply calls_made_refl | apply calls_made_log
                 | apply (calls_made_call _ _ []) 
                 | apply (calls_made_call _ _ [_]) ].
Qed.

End Classification.

(** ** Reading the payload from a block *)

Lemma read_bytes_inside (b : Block) (off n : nat) :
  (0 < n)%nat ->
  read_bytes b off n
  = if (off + n <=? List.length b)%nat
    then Some (firstn n (skipn off b)) else None.
Proof.
  intros Hn. unfold read_bytes.
  rewrite length_firstn, length_skipn.
  destruct (Nat.leb_spec (off + n) (List.length b));
    destruct (Nat.eqb_spec (Nat.min n (List.length b - off)) n);
    trivial; lia.
Qed.

Lemma read_DWORD_view (b : Block) (off : nat) :
  read_DWORD b off
  = if (off + 4 <=? List.length b)%nat
    then Some (or_zero (read_DWORD b off)) else None.
Proof.
  unfold read_DWORD. rewrite read_bytes_inside by lia.
  destruct (off + 4 <=? List.length b)%nat; reflexivity.
Qed.

Lemma read_GUID_view (b : Block) :
  read_GUID b 12
  = if (28 <=? List.length b)%nat
    then Some (dbcc_classguid (view b)) else None.
Proof.
  unfold view. cbn [dbcc_classguid]. unfold read_GUID, read_DWORD, read_WORD.
  rewrite !read_bytes_inside by lia. cbn [Nat.add].
  destruct (Nat.leb_spec 28 (List.length b)).
  - destruct (Nat.leb_spec 16 (List.length b)); [|lia].
    destruct (Nat.leb_spec 18 (List.length b)); [|lia].
    destruct (Nat.leb_spec 20 (List.length b)); [|lia].
    reflexivity.
  - destruct (16 <=? List.length b)%nat; cbn [option_map]; trivial.
    destruct (18 <=? List.length b)%nat; cbn [option_map]; trivial.
    destruct (20 <=? List.length b)%nat; cbn [option_map]; trivial.
Qed.

Lemma read_wide_string_view (b : Block) :
  read_wide_string b 28
  = if name_terminated b then Some (dbcc_name (view b)) else None.
Proof.
  unfold name_terminated, view. cbn [dbcc_name].
  destruct (read_wide_string b 28); reflexivity.
Qed.

(** On a block that holds all that is read the procedure does what it does
    on the record the block stands for; on any other block it reads outside
    the block. *)
Lemma WindowProc_raw_cases (P : Platform) (hwnd uMsg wPar : Z)
      (lPar : option Block) (w : World) :
  WindowProc_raw P hwnd uMsg wPar lPar w
  = if payload_readable uMsg wPar lPar
    then run_of (WindowProc P hwnd uMsg wPar (option_map view lPar) w)
    else BadRead.
Proof.
  unfold WindowProc_raw, WindowProc, payload_readable.
  destruct lPar as [b|]; cbn [option_map].
  - destruct (Z.eqb_spec uMsg WM_DESTROY) as [->|_];
      [change (WM_DESTROY =? WM_DEVICECHANGE) with false; reflexivity|].
    destruct (Z.eqb_spec uMsg WM_CLIPBOARDUPDATE) as [->|_];
      [change (WM_CLIPBOARDUPDATE =? WM_DEVICECHANGE) with false;
       reflexivity|].
    destruct (uMsg =? WM_DEVICECHANGE); cbn [andb]; [|reflexivity].
    destruct ((wPar =? DBT_DEVICEARRIVAL)
              || (wPar =? DBT_DEVICEREMOVECOMPLETE)); [|reflexivity].
    rewrite (read_DWORD_view b 4), (read_DWORD_view b 12), read_GUID_view,
      read_wide_string_view.
    cbn [Nat.add].
    change (or_zero (read_DWORD b 4)) with (dbch_devicetype (view b)).
    change (or_zero (read_DWORD b 12)) with (dbcv_unitmask (view b)).
    destruct (8 <=? List.length b)%nat; cbn [andb]; [|reflexivity].
    destruct (dbch_devicetype (view b) =? DBT_DEVTYP_DEVICEINTERFACE).
    + destruct (28 <=? List.length b)%nat; cbn [andb]; [|reflexivity].
      destruct (name_terminated b);
        [|destruct (IsEqualGUID _ _); reflexivity].
      destruct (IsEqualGUID _ _);
        destruct (narrow_device_path P _ w) as [[p w1]|];
        try reflexivity; destruct (wPar =? DBT_DEVICEARRIVAL); reflexivity.
    + destruct (dbch_devicetype (view b) =? DBT_DEVTYP_VOLUME);
        [|reflexivity].
      destruct (wPar =? DBT_DEVICEARRIVAL).
      * destruct (16 <=? List.length b)%nat; reflexivity.
      * destruct (wPar =? DBT_DEVICEREMOVECOMPLETE); reflexivity.
  - repeat match goal with
           | |- context [if ?c then _ else _] => destruct c
           end; reflexivity.
Qed.

(** ** The converted device path *)

Lemma string_of_list_ascii_length (l : list ascii) :
  String.length (string_of_list_ascii l) = List.length l.
Proof. induction l as [|a l IH]; cbn; [reflexivity | now rewrite IH]. Qed.

Lemma store_into_length (buf bytes : list ascii) :
  List.length (store_into buf bytes) = List.length buf.
Proof.
  unfold store_into. rewrite length_firstn, length_app, length_skipn. lia.
Qed.

Lemma store_into_exact (buf bytes : list ascii) :
  List.length bytes = List.length buf -> store_into buf bytes = bytes.
Proof.
  intros E. unfold store_into.
  rewrite skipn_all2 by lia. rewrite app_nil_r, <- E. apply firstn_all.
Qed.

Lemma store_into_nil (buf : list ascii) : store_into buf [] = buf.
Proof. unfold store_into. cbn [List.length skipn app]. apply firstn_all. Qed.

Section Claims.

Variable P : Platform.

(** The procedure on a record throws exactly when it comes to the
    conversion and the size query answers a negative value. *)
Lemma WindowProc_throws (hwnd uMsg wPar : Z) (lPar : LPARAM) (w : World) :
  match WindowProc P hwnd uMsg wPar lPar w with
  | None => true
  | Some _ => false
  end = conversion_refused P (mkMSG uMsg wPar lPar).
Proof.
  unfold WindowProc, conversion_refused. cbn [message wParam lParam].
  destruct (Z.eqb_spec uMsg WM_DESTROY) as [->|_]; [reflexivity|].
  destruct (Z.eqb_spec uMsg WM_CLIPBOARDUPDATE) as [->|_]; [reflexivity|].
  destruct (uMsg =? WM_DEVICECHANGE); cbn [andb]; [|reflexivity].
  destruct ((wPar =? DBT_DEVICEARRIVAL)
            || (wPar =? DBT_DEVICEREMOVECOMPLETE)); cbn [andb];
    [|reflexivity].
  destruct lPar as [pHdr|]; [|reflexivity].
  destruct (dbch_devicetype pHdr =? DBT_DEVTYP_DEVICEINTERFACE); cbn [andb].
  - unfold narrow_device_path, string_fill.
    destruct (IsEqualGUID _ _);
      destruct (fst (WideCharToMultiByte P (wstring_of (dbcc_name pHdr)) 0)
                <? 0);
      try reflexivity; destruct (wPar =? DBT_DEVICEARRIVAL); reflexivity.
  - destruct (dbch_devicetype pHdr =? DBT_DEVTYP_VOLUME); [|reflexivity].
    destruct (wPar =? DBT_DEVICEARRIVAL); [reflexivity|].
    destruct (wPar =? DBT_DEVICEREMOVECOMPLETE); reflexivity.
Qed.

(** The window procedure on a device-interface arrival or removal. *)
Lemma WindowProc_device_interface (hwnd wPar : Z) (pHdr : DEV_BROADCAST_HDR)
      (w : World) (path : string) :
  wPar = DBT_DEVICEARRIVAL \/ wPar = DBT_DEVICEREMOVECOMPLETE ->
  dbch_devicetype pHdr = DBT_DEVTYP_DEVICEINTERFACE ->
  decoded_path P (dbcc_name pHdr) = Some path ->
  WindowProc P hwnd WM_DEVICECHANGE wPar (Some pHdr) w
  = Some (TRUE,
          LogEvent P
            (interface_opening
               (IsEqualGUID (dbcc_classguid pHdr) GUID_DEVINTERFACE_USB_DEVICE)
               (wPar =? DBT_DEVICEARRIVAL) ++ path)
            (os_call
               (Call_WideCharToMultiByte (wstring_of (dbcc_name pHdr))
                  (fst (WideCharToMultiByte P (wstring_of (dbcc_name pHdr)) 0)))
               (os_call
                  (Call_WideCharToMultiByte (wstring_of (dbcc_name pHdr)) 0)
                  w))).
Proof.
  intros Hact Hty Hpath. unfold WindowProc.
  rewrite Hty, narrow_device_path_run, Hpath.
  destruct (IsEqualGUID _ _); destruct Hact as [-> | ->]; reflexivity.
Qed.

Lemma interface_opening_reading (usb arrival : bool) (path : string) :
  let t := (interface_opening usb arrival ++ path)%string in
  says_usb t = usb /\ says_non_usb t = negb usb /\
  says_interface_arrival t = arrival /\
  says_interface_removal t = negb arrival.
Proof. destruct usb, arrival; repeat split; reflexivity. Qed.

(** C1: a device-interface arrival or removal is logged as a USB event
    exactly when its class identifier is the USB device-interface class id;
    with any other identifier it is logged as a non-USB device-interface
    event; in both cases the line says arrival for an arrival and removal
    for a removal. *)
Theorem C1_usb_class_iff_guid (hwnd wPar : Z) (pHdr : DEV_BROADCAST_HDR)
        (w : World) :
  size_query_nonneg P ->
  wPar = DBT_DEVICEARRIVAL \/ wPar = DBT_DEVICEREMOVECOMPLETE ->
  dbch_devicetype pHdr = DBT_DEVTYP_DEVICEINTERFACE ->
  exists t w',
    WindowProc P hwnd WM_DEVICECHANGE wPar (Some pHdr) w = Some (TRUE, w') /\
    emits P w w' [t] /\
    (says_usb t = true <->
     dbcc_classguid pHdr = GUID_DEVINTERFACE_USB_DEVICE) /\
    (says_non_usb t = true <->
     dbcc_classguid pHdr <> GUID_DEVINTERFACE_USB_DEVICE) /\
    (says_interface_arrival t = true <-> wPar = DBT_DEVICEARRIVAL) /\
    (says_interface_removal t = true <-> wPar = DBT_DEVICEREMOVECOMPLETE).
Proof.
  intros Hq Hact Hty.
  destruct (decoded_path_total P (dbcc_name pHdr) Hq) as [path Hpath].
  pose proof (WindowProc_device_interface hwnd wPar pHdr w path Hact Hty Hpath)
    as Hrun.
  eexists; eexists. split; [exact Hrun|].
  split.
  { apply emits_one_log. do 2 apply emits_then_call. apply emits_refl. }
  destruct (interface_opening_reading
              (IsEqualGUID (dbcc_classguid pHdr) GUID_DEVINTERFACE_USB_DEVICE)
              (wPar =? DBT_DEVICEARRIVAL) path) as (-> & -> & -> & ->).
  rewrite negb_true_iff, <- not_true_iff_false, IsEqualGUID_eq.
  repeat split; try tauto;
    destruct Hact as [-> | ->]; cbn; try discriminate; trivial.
Qed.

(** The texts logged for one message: none or one, and a logged text opens
    with the words of one of the events. *)
Lemma logged_by_shape (m : MSG) :
  (List.length (logged_by P m) <= 1)%nat /\
  forallb well_formed_event (logged_by P m) = true.
Proof.
  destruct m as [uMsg wPar lPar]. unfold logged_by, WindowProc.
  cbn [message wParam lParam].
  destruct lPar as [pHdr|]; rewrite ?narrow_device_path_run;
    [destruct (decoded_path P (dbcc_name pHdr)) as [s|]|];
    repeat match goal with
           | |- context [if ?b then _ else _] => destruct b
           end;
    unfold console_texts; cbn [os_call cout]; rewrite ?LogEvent_cout;
    cbn [map cout app initial_World os_call text List.length];
    (split; [cbn; lia | reflexivity]).
Qed.

(** C3 (as the code has it): the window procedure on the bytes [lParam]
    points to.  When the block does not hold all that is read of the
    structure its device type announces (a block that ends before the
    device type, before the end of the class identifier or of the unit
    mask, or a device name with no terminator inside the block), the
    procedure reads outside the block.  On every other input, a null
    pointer, an action code outside the arrival/removal set, an unknown
    device type and an empty device name included, it throws exactly when
    the size query of the conversion answers a negative value; otherwise it
    returns, and what it logs is fixed by the message alone and is either
    nothing or one line that opens with the words of one of the events. *)
Theorem C3_total_on_readable_payloads (hwnd uMsg wPar : Z)
        (lPar : option Block) (w : World) :
  let m := mkMSG uMsg wPar (option_map view lPar) in
  (payload_readable uMsg wPar lPar = false ->
   WindowProc_raw P hwnd uMsg wPar lPar w = BadRead) /\
  (payload_readable uMsg wPar lPar = true ->
   conversion_refused P m = true ->
   WindowProc_raw P hwnd uMsg wPar lPar w = Threw) /\
  (payload_readable uMsg wPar lPar = true ->
   conversion_refused P m = false ->
   exists r w',
     WindowProc_raw P hwnd uMsg wPar lPar w = Returned r w' /\
     emits P w w' (logged_by P m) /\
     (List.length (logged_by P m) <= 1)%nat /\
     forallb well_formed_event (logged_by P m) = true).
Proof.
  intros m. rewrite WindowProc_raw_cases.
  pose proof (WindowProc_throws hwnd uMsg wPar (option_map view lPar) w)
    as Hthrows. fold m in Hthrows.
  split; [|split].
  - intros ->. reflexivity.
  - intros -> Href. rewrite Href in Hthrows.
    destruct (WindowProc P hwnd uMsg wPar (option_map view lPar) w);
      [discriminate | reflexivity].
  - intros -> Href. rewrite Href in Hthrows.
    destruct (WindowProc P hwnd uMsg wPar (option_map view lPar) w)
      as [[r w']|] eqn:Hrun; [|discriminate].
    exists r, w'. split; [reflexivity|]. split.
    + eapply WindowProc_emits; eauto.
    + apply logged_by_shape.
Qed.

(** C4 (as the code has it): a device-change arrival or removal whose device
    type is neither device interface nor volume is reported handled and
    leaves the world as it was: nothing is logged. *)
Theorem C4_other_device_type_logs_nothing (hwnd wPar : Z)
        (pHdr : DEV_BROADCAST_HDR) (w : World) :
  wPar = DBT_DEVICEARRIVAL \/ wPar = DBT_DEVICEREMOVECOMPLETE ->
  dbch_devicetype pHdr <> DBT_DEVTYP_DEVICEINTERFACE ->
  dbch_devicetype pHdr <> DBT_DEVTYP_VOLUME ->
  WindowProc P hwnd WM_DEVICECHANGE wPar (Some pHdr) w = Some (TRUE, w).
Proof.
  intros Hact Hi Hv. unfold WindowProc.
  apply Z.eqb_neq in Hi, Hv. rewrite Hi, Hv.
  destruct Hact as [-> | ->]; reflexivity.
Qed.

(** C5 (as the code has it): for a volume notification with a 26-bit unit
    mask, an arrival logs one line that carries the drive letter decoded from
    the mask, lowest set bit first and ['?'] for an empty mask; a removal
    logs one fixed line, whatever the unit mask. *)
Theorem C5_volume_arrival_letter_removal_plain (hwnd : Z)
        (pHdr : DEV_BROADCAST_HDR) (w : World) :
  dbch_devicetype pHdr = DBT_DEVTYP_VOLUME ->
  0 <= dbcv_unitmask pHdr < 2 ^ 26 ->
  (exists w',
     WindowProc P hwnd WM_DEVICECHANGE DBT_DEVICEARRIVAL (Some pHdr) w
     = Some (TRUE, w') /\
     emits P w w'
       [("Volume/Drive Mounted: "
         ++ String (DecodeDriveLetter (dbcv_unitmask pHdr)) ":\")%string] /\
     (dbcv_unitmask pHdr = 0 ->
      DecodeDriveLetter (dbcv_unitmask pHdr) = "?"%char) /\
     (forall i, Z.testbit (dbcv_unitmask pHdr) i = true ->
        (forall j, 0 <= j < i -> Z.testbit (dbcv_unitmask pHdr) j = false) ->
        DecodeDriveLetter (dbcv_unitmask pHdr) = letter_at i)) /\
  (exists w',
     WindowProc P hwnd WM_DEVICECHANGE DBT_DEVICEREMOVECOMPLETE (Some pHdr) w
     = Some (TRUE, w') /\
     emits P w w' ["Volume/Drive Removed."]).
Proof.
  intros Hty Hm. unfold WindowProc. rewrite Hty. cbn -[LogEvent Z.pow].
  split; eexists; (split; [reflexivity|]).
  - split; [apply emits_one_log, emits_refl|]. split.
    + intros ->. apply DecodeDriveLetter_zero.
    + intros i. now apply DecodeDriveLetter_lowest.
  - apply emits_one_log, emits_refl.
Qed.



(** What the window procedure returns for a device change. *)
Lemma WindowProc_device_change_result (hwnd wPar : Z) (lPar : LPARAM)
      (w w' : World) (r : Z) :
  WindowProc P hwnd WM_DEVICECHANGE wPar lPar w = Some (r, w') -> r = TRUE.
Proof.
  unfold WindowProc.
  change (WM_DEVICECHANGE =? WM_DESTROY) with false.
  change (WM_DEVICECHANGE =? WM_CLIPBOARDUPDATE) with false.
  change (WM_DEVICECHANGE =? WM_DEVICECHANGE) with true. cbv iota.
  destruct lPar as [pHdr|]; rewrite ?narrow_device_path_run;
    [destruct (decoded_path P (dbcc_name pHdr)) as [s|]|];
    repeat match goal with
           | |- context [if ?b then _ else _] => destruct b
           end;
    intros H; inversion H; reflexivity.
Qed.

(** The default handler is called exactly for the messages that are none of
    the three the procedure handles. *)
Lemma calls_by_default (uMsg wPar : Z) (lPar : LPARAM) :
  existsb is_DefWindowProc (calls_by P (mkMSG uMsg wPar lPar))
  = negb ((uMsg =? WM_DESTROY) || (uMsg =? WM_CLIPBOARDUPDATE)
          || (uMsg =? WM_DEVICECHANGE)).
Proof.
  unfold calls_by, WindowProc. cbn [message wParam lParam].
  destruct lPar as [pHdr|]; rewrite ?narrow_device_path_run;
    [destruct (decoded_path P (dbcc_name pHdr)) as [s|]|];
    repeat match goal with
           | |- context [if ?b then _ else _] => destruct b
           end;
    cbn [os_call os_calls]; rewrite ?LogEvent_os_calls; reflexivity.
Qed.

(** C10: every device-change message, whatever its action code and payload
    and whether or not a line is logged for it, is answered with TRUE and is
    not passed to the default handler; the default handler is called exactly
    for the messages that are neither destroy, clipboard update nor device
    change. *)
Theorem C10_device_change_always_handled :
  size_query_nonneg P ->
  (forall (hwnd wPar : Z) (lPar : LPARAM) (w : World),
     exists w',
       WindowProc P hwnd WM_DEVICECHANGE wPar lPar w = Some (TRUE, w') /\
       calls_made w w' (calls_by P (mkMSG WM_DEVICECHANGE wPar lPar)) /\
       existsb is_DefWindowProc
         (calls_by P (mkMSG WM_DEVICECHANGE wPar lPar)) = false) /\
  (forall (hwnd uMsg wPar : Z) (lPar : LPARAM) (w : World),
     exists r w',
       WindowProc P hwnd uMsg wPar lPar w = Some (r, w') /\
       calls_made w w' (calls_by P (mkMSG uMsg wPar lPar)) /\
       (existsb is_DefWindowProc (calls_by P (mkMSG uMsg wPar lPar)) = true
        <-> uMsg <> WM_DESTROY /\ uMsg <> WM_CLIPBOARDUPDATE
            /\ uMsg <> WM_DEVICECHANGE)).
Proof.
  intros Hq. split.
  - intros hwnd wPar lPar w.
    destruct (WindowProc_returns P hwnd WM_DEVICECHANGE wPar lPar w Hq)
      as (r & w' & Hrun).
    pose proof (WindowProc_device_change_result _ _ _ _ _ _ Hrun) as ->.
    exists w'. split; [exact Hrun|]. split.
    + eapply WindowProc_calls; eauto.
    + rewrite calls_by_default. reflexivity.
  - intros hwnd uMsg wPar lPar w.
    destruct (WindowProc_returns P hwnd uMsg wPar lPar w Hq)
      as (r & w' & Hrun).
    exists r, w'. split; [exact Hrun|]. split.
    + eapply WindowProc_calls; eauto.
    + rewrite calls_by_default, negb_true_iff, !orb_false_iff, !Z.eqb_neq.
      tauto.
Qed.

End Claims.

(** ** The run loop and [main] *)

Section Run.

Variable P : Platform.
Hypothesis Hq : size_query_nonneg P.

Lemma emits_logged (w w' : World) (ts : list string) :
  emits P w w' ts -> logged P w w' ts.
Proof.
  intros [Hc Hf]. split; trivial. intros Hd Hr. apply (Hf Hd Hr).
Qed.

Lemma logged_after (w w1 w2 : World) (a b : list string) :
  emits P w w1 a -> logged P w1 w2 b -> logged P w w2 (a ++ b).
Proof.
  intros [Hc1 Hf1] [Hc2 Hf2]. split.
  - now rewrite Hc2, Hc1, app_assoc.
  - intros Hd Hr. destruct (Hf1 Hd Hr) as [E1 R1].
    now rewrite (Hf2 Hd R1), E1, app_assoc.
Qed.

Lemma deliver_runs (hwnd : Z) (ms : list MSG) : forall w,
  exists w', deliver P hwnd ms w = Some w' /\
             emits P w w' (flat_map (logged_by P) ms).
Proof.
  induction ms as [|m ms IH]; intros w; cbn [deliver flat_map].
  - exists w. split; [reflexivity | apply emits_refl].
  - destruct (WindowProc_returns P hwnd (message m) (wParam m) (lParam m) w Hq)
      as (r & w1 & Hrun).
    rewrite Hrun. destruct (IH w1) as (w' & Hrest & Hem).
    exists w'. split; [exact Hrest|].
    eapply emits_trans; [|exact Hem].
    apply WindowProc_emits in Hrun. now destruct m.
Qed.

(** The loop hands every delivered message to the window procedure before
    it asks for the next one; the log grows by the texts of the messages in
    the order of delivery. *)
Lemma message_loop_runs (calls : list GetMessageCall) : forall w,
  exists w',
    message_loop P calls w
    = match final_msg calls with
      | None => LoopWaiting w'
      | Some m => LoopEnded m w'
      end /\
    emits P w w' (flat_map (logged_by P) (delivered calls)).
Proof.
  induction calls as [|c calls IH]; intros w;
    cbn [message_loop final_msg delivered].
  - exists (os_call Call_GetMessage w).
    split; [reflexivity | apply emits_os_call].
  - destruct (deliver_runs (g_hwnd (os_call Call_GetMessage w))
                (sent_during c) (os_call Call_GetMessage w))
      as (w1 & Hsent & Hem1).
    rewrite Hsent.
    assert (Hem1' : emits P w w1 (flat_map (logged_by P) (sent_during c))).
    { change (flat_map (logged_by P) (sent_during c))
        with ([] ++ flat_map (logged_by P) (sent_during c)).
      eapply emits_trans; [apply emits_os_call | exact Hem1]. }
    destruct (0 <? gm_return c).
    + match goal with
      | |- context [WindowProc P ?h ?u ?wp ?lp ?w0] =>
          destruct (WindowProc_returns P h u wp lp w0 Hq) as (r & w2 & Hrun)
      end.
      rewrite Hrun. destruct (IH w2) as (w' & Hloop & Hem2).
      exists w'. split; [exact Hloop|].
      rewrite flat_map_app. cbn [flat_map].
      eapply emits_trans; [exact Hem1'|].
      eapply emits_trans; [|exact Hem2].
      apply WindowProc_emits in Hrun.
      change (logged_by P (gm_msg c)) with ([] ++ logged_by P (gm_msg c)).
      eapply emits_trans; [|destruct (gm_msg c); exact Hrun].
      do 2 apply emits_then_call. apply emits_refl.
    + exists w1. split; [reflexivity | exact Hem1'].
Qed.

Lemma register_notifications_emits (s : Session) (w : World) :
  emits P w (register_notifications P s w) (registration_texts P s).
Proof.
  unfold register_notifications, registration_texts,
    RegisterDeviceNotifications, LogError, error_text.
  destruct (AddClipboardFormatListener_result s);
    destruct (RegisterDeviceNotification_result s); cbn [negb app];
    emits_chain.
Qed.

Lemma cleanup_runs (s : Session) (msg : MSG) (w : World) :
  exists w',
    cleanup P s msg w = Exited (to_int (wParam msg)) w' /\
    logged P w w' ("--- SecurityMonitor Stopping ---"
                   :: flat_map (logged_by P) (DestroyWindow_sends s)).
Proof.
  unfold cleanup.
  match goal with
  | |- context [deliver P ?h ?ms ?w0] =>
      destruct (deliver_runs h ms w0) as (w1 & Hd & Hem); rewrite Hd
  end.
  eexists. split; [reflexivity|].
  assert (Hall : emits P w w1
            (["--- SecurityMonitor Stopping ---"]
             ++ flat_map (logged_by P) (DestroyWindow_sends s))).
  { eapply emits_trans; [|exact Hem].
    do 2 apply emits_then_call. apply emits_one_log, emits_refl. }
  destruct Hall as [Hc Hf]. cbn [app] in Hc, Hf.
  destruct (is_open (g_logFile w1)); split; trivial;
    intros Hdk Hr; apply (Hf Hdk Hr).
Qed.

Lemma main_window_runs (s : Session) (w : World) (u : unit) (hwnd : Z) :
  RegisterClassW_result s = Succeeded u ->
  CreateWindowExW_result s = Succeeded hwnd ->
  exists w',
    main_window P s w = loop_outcome s w' /\
    logged P w w' (run_texts P s).
Proof.
  intros Hclass Hwin. unfold main_window, loop_outcome, run_texts, cleanup_texts.
  rewrite Hclass, Hwin.
  match goal with
  | |- context [message_loop P ?cs ?w0] =>
      destruct (message_loop_runs cs w0) as (w1 & Hloop & Hem);
      rewrite Hloop; clear Hloop;
      assert (Hstart : emits P w w1
                (["Message-only window created successfully."]
                 ++ registration_texts P s
                 ++ ["Starting message loop. Monitoring active..."]
                 ++ flat_map (logged_by P) (delivered (GetMessage_calls s))))
  end.
  { rewrite !app_assoc. eapply emits_trans; [|exact Hem].
    apply emits_then_log.
    eapply emits_trans; [|apply register_notifications_emits].
    apply emits_one_log.
    unfold emits, console_texts, file_texts, sink_ready. cbn.
    rewrite !app_nil_r. auto. }
  destruct (final_msg (GetMessage_calls s)) as [m|].
  - destruct (cleanup_runs s m w1) as (w' & Hend & Hlog).
    exists w'. split; [exact Hend|].
    pose proof (logged_after _ _ _ _ _ Hstart Hlog) as H.
    now rewrite <- !app_assoc in H.
  - destruct (deliver_runs (g_hwnd w1) (GetMessage_blocked_sends s) w1)
      as (w' & Hd & Hem2).
    rewrite Hd. exists w'. split; [reflexivity|].
    apply emits_logged.
    pose proof (emits_trans P _ _ _ _ _ Hstart Hem2) as H.
    now rewrite <- !app_assoc in H.
Qed.

(** When the directory is resolved, the log opens and the window is
    created, [main] reaches the loop, and the log file holds the start-up
    texts followed by the texts of the run. *)
Lemma main_runs (s : Session) (dir : string) (u : unit) (hwnd : Z) :
  project_dir P s = inl dir ->
  log_open_result s = true ->
  RegisterClassW_result s = Succeeded u ->
  CreateWindowExW_result s = Succeeded hwnd ->
  exists w',
    main P s = loop_outcome s w' /\
    (healthy P ->
     file_texts w' =
     ["--- SecurityMonitor Started ---"; ("Project Directory: " ++ dir)%string]
     ++ run_texts P s).
Proof.
  intros Hdir Hopen Hclass Hwin. unfold main, GetExecutableDirectory.
  unfold project_dir in Hdir.
  destruct (GetModuleFileNameW_result s) as [path|e];
    [injection Hdir as <- | rewrite Hdir]; rewrite Hopen; cbn [negb];
    match goal with
    | |- context [main_window P s (LogEvent P ?b (LogEvent P ?a ?wo))] =>
        assert (Hem : emits P wo (LogEvent P b (LogEvent P a wo)) [a; b])
          by emits_chain;
        assert (Hready : sink_ready wo) by (split; reflexivity);
        assert (Hempty : file_texts wo = [])
          by (unfold file_texts;
              cbn [g_logFile set_logFile written put_cout set_logFilePath];
              rewrite ?LogError_eq, ?LogEvent_g_logFile; reflexivity);
        destruct (main_window_runs s (LogEvent P b (LogEvent P a wo))
                    u hwnd Hclass Hwin) as (w' & Hrun & _ & Hfile);
        exists w'; (split; [exact Hrun|]); intros Hd;
        destruct Hem as [_ Hem]; destruct (Hem Hd Hready) as [E R];
        rewrite (Hfile Hd R), E, Hempty; reflexivity
    end.
Qed.

End Run.

(** ** Counting lines *)

Lemma count_app (f : string -> bool) (a b : list string) :
  count f (a ++ b) = (count f a + count f b)%nat.
Proof. unfold count. now rewrite filter_app, length_app. Qed.

Section Counting.

Variable P : Platform.

(** No line of the window procedure is a warning, and its only line that is
    the clipboard text is the one for a clipboard update. *)
Lemma logged_by_counts (m : MSG) :
  count says_warning (logged_by P m) = 0%nat /\
  count says_clipboard (logged_by P m)
  = if is_clipboard_update m then 1%nat else 0%nat.
Proof.
  destruct m as [uMsg wPar lPar].
  unfold logged_by, WindowProc, is_clipboard_update.
  cbn [message wParam lParam].
  destruct (Z.eqb_spec uMsg WM_DESTROY) as [->|_].
  { unfold console_texts. cbn [os_call cout]. rewrite LogEvent_cout.
    split; reflexivity. }
  destruct (uMsg =? WM_CLIPBOARDUPDATE).
  { unfold console_texts. rewrite LogEvent_cout. split; reflexivity. }
  destruct lPar as [pHdr|]; rewrite ?narrow_device_path_run;
    [destruct (decoded_path P (dbcc_name pHdr)) as [s|]|];
    repeat match goal with
           | |- context [if ?b then _ else _] => destruct b
           end;
    unfold console_texts; cbn [os_call cout]; rewrite ?LogEvent_cout;
    cbn [map cout app initial_World os_call text];
    (split; reflexivity).
Qed.

Lemma flat_logged_by_counts (ms : list MSG) :
  count says_warning (flat_map (logged_by P) ms) = 0%nat /\
  count says_clipboard (flat_map (logged_by P) ms)
  = List.length (filter is_clipboard_update ms).
Proof.
  induction ms as [|m ms [IHw IHc]]; [split; reflexivity|].
  cbn [flat_map filter]. rewrite !count_app, IHw, IHc.
  destruct (logged_by_counts m) as [-> ->].
  destruct (is_clipboard_update m); split; reflexivity.
Qed.

End Counting.

Section RunClaims.

Variable P : Platform.



(** C6: when the registration for device notifications fails and the one
    for the clipboard succeeds, [main] does not stop at start-up: it reaches
    the message loop, the log holds exactly one warning line, and it holds
    one clipboard line for each clipboard update the window procedure is
    given. *)
Theorem C6_device_registration_failure_not_fatal (s : Session)
        (dir : string) (u ok : unit) (hwnd e : Z) :
  size_query_nonneg P ->
  healthy P ->
  project_dir P s = inl dir ->
  log_open_result s = true ->
  RegisterClassW_result s = Succeeded u ->
  CreateWindowExW_result s = Succeeded hwnd ->
  AddClipboardFormatListener_result s = Succeeded ok ->
  RegisterDeviceNotification_result s = Failed e ->
  exists w',
    main P s = loop_outcome s w' /\
    In "Starting message loop. Monitoring active..." (file_texts w') /\
    In "WARNING: Failed to register device notifications. USB/Device events may not be logged accurately."
       (file_texts w') /\
    count says_warning (file_texts w') = 1%nat /\
    count says_clipboard (file_texts w')
    = List.length (filter is_clipboard_update (handled s)).
Proof.
  intros Hq Hd Hdir Hopen Hclass Hwin Hclip Hdev.
  destruct (main_runs P Hq s dir u hwnd Hdir Hopen Hclass Hwin)
    as (w' & Hrun & Hfile).
  exists w'. split; [exact Hrun|]. rewrite (Hfile Hd).
  unfold run_texts, registration_texts, cleanup_texts, handled.
  rewrite Hclip, Hdev. split.
  { cbn [app]. do 6 right. left. reflexivity. }
  split.
  { cbn [app]. do 5 right. left. reflexivity. }
  rewrite !count_app, filter_app, length_app.
  destruct (flat_logged_by_counts P (delivered (GetMessage_calls s)))
    as [-> ->].
  destruct (final_msg (GetMessage_calls s)).
  - change ("--- SecurityMonitor Stopping ---"
            :: flat_map (logged_by P) (DestroyWindow_sends s))
      with (["--- SecurityMonitor Stopping ---"]
            ++ flat_map (logged_by P) (DestroyWindow_sends s)).
    rewrite !count_app.
    destruct (flat_logged_by_counts P (DestroyWindow_sends s)) as [-> ->].
    split; reflexivity.
  - destruct (flat_logged_by_counts P (GetMessage_blocked_sends s))
      as [-> ->].
    split; reflexivity.
Qed.

(** Reads off the calls of a run that stops at start-up. *)
Ltac read_os_calls :=
  repeat (rewrite ?LogError_os_calls, ?LogEvent_os_calls;
          cbn [os_calls os_call set_logFile put_cerr put_cout close_log
               set_logFilePath set_hwnd tick initial_World]);
  unfold directory_calls, error_calls; rewrite <- ?app_assoc; cbn [app].

Lemma main_window_class_fails (s : Session) (w : World) (e : Z) :
  RegisterClassW_result s = Failed e ->
  exists w', main_window P s w = Exited 1 w' /\
             os_calls w'
             = os_calls w
               ++ [Call_GetModuleHandle; Call_RegisterClassW]
               ++ error_calls e.
Proof.
  intros Hclass. unfold main_window. rewrite Hclass.
  eexists. split; [reflexivity|]. now read_os_calls.
Qed.

Lemma main_window_create_fails (s : Session) (w : World) (u : unit) (e : Z) :
  RegisterClassW_result s = Succeeded u ->
  CreateWindowExW_result s = Failed e ->
  exists w', main_window P s w = Exited 1 w' /\
             os_calls w'
             = os_calls w
               ++ [Call_GetModuleHandle; Call_RegisterClassW;
                   Call_GetModuleHandle; Call_CreateWindowExW]
               ++ error_calls e.
Proof.
  intros Hclass Hwin. unfold main_window. rewrite Hclass, Hwin.
  eexists. split; [reflexivity|]. now read_os_calls.
Qed.

(** With a directory and an open log, [main] goes on to the window; up to
    there its calls into the system are those of
    [GetExecutableDirectory]. *)
Lemma main_reaches_window (s : Session) (dir : string) :
  project_dir P s = inl dir ->
  log_open_result s = true ->
  exists w0, main P s = main_window P s w0 /\
             os_calls w0 = directory_calls s.
Proof.
  unfold project_dir, main, GetExecutableDirectory. intros Hdir Hopen.
  destruct (GetModuleFileNameW_result s) eqn:Hmod;
    [injection Hdir as <- | rewrite Hdir]; rewrite Hopen; cbn [negb];
    (eexists; split; [reflexivity|]); read_os_calls; rewrite Hmod;
    reflexivity.
Qed.

Lemma main_without_directory (s : Session) (what : string) :
  project_dir P s = inr what ->
  exists w, main P s = Exited 1 w /\
            os_calls w = directory_calls s.
Proof.
  unfold project_dir, main, GetExecutableDirectory. intros Hdir.
  destruct (GetModuleFileNameW_result s) eqn:Hmod; [discriminate|].
  rewrite Hdir.
  eexists. split; [reflexivity|]. read_os_calls. rewrite Hmod. reflexivity.
Qed.

Lemma main_without_log (s : Session) (dir : string) :
  project_dir P s = inl dir ->
  log_open_result s = false ->
  exists w, main P s = Exited 1 w /\
            os_calls w = directory_calls s.
Proof.
  unfold project_dir, main, GetExecutableDirectory. intros Hdir Hopen.
  destruct (GetModuleFileNameW_result s) eqn:Hmod;
    [injection Hdir as <- | rewrite Hdir]; rewrite Hopen; cbn [negb];
    rewrite GetTimestamp_eq;
    (eexists; split; [reflexivity|]); read_os_calls; rewrite Hmod;
    reflexivity.
Qed.

Lemma directory_calls_no_GetMessage (s : Session) (more : list OsCall) :
  ~ In Call_GetMessage more ->
  ~ In Call_GetMessage (directory_calls s ++ more).
Proof.
  intros Hmore. unfold directory_calls, error_calls.
  destruct (GetModuleFileNameW_result s); cbn; intuition discriminate.
Qed.

(** C7: each fatal start-up failure (no executable directory, log file not
    opened, window class not registered, window not created) makes [main]
    return 1 without a single call of [GetMessage]; and when the start-up
    succeeds and the loop is ended by a message whose [wParam] is 0, [main]
    returns 0. *)
Theorem C7_fatal_startup_exits_nonzero (s : Session) :
  (forall what,
     project_dir P s = inr what ->
     exists w, main P s = Exited 1 w /\ ~ In Call_GetMessage (os_calls w)) /\
  (forall dir,
     project_dir P s = inl dir ->
     log_open_result s = false ->
     exists w, main P s = Exited 1 w /\ ~ In Call_GetMessage (os_calls w)) /\
  (forall dir e,
     project_dir P s = inl dir ->
     log_open_result s = true ->
     RegisterClassW_result s = Failed e ->
     exists w, main P s = Exited 1 w /\ ~ In Call_GetMessage (os_calls w)) /\
  (forall dir u e,
     project_dir P s = inl dir ->
     log_open_result s = true ->
     RegisterClassW_result s = Succeeded u ->
     CreateWindowExW_result s = Failed e ->
     exists w, main P s = Exited 1 w /\ ~ In Call_GetMessage (os_calls w)) /\
  (forall dir u hwnd m,
     size_query_nonneg P ->
     project_dir P s = inl dir ->
     log_open_result s = true ->
     RegisterClassW_result s = Succeeded u ->
     CreateWindowExW_result s = Succeeded hwnd ->
     final_msg (GetMessage_calls s) = Some m ->
     wParam m = 0 ->
     exists w, main P s = Exited 0 w).
Proof.
  repeat split.
  - intros what Hdir.
    destruct (main_without_directory s what Hdir) as (w & Hrun & Hcalls).
    exists w. split; [exact Hrun|]. rewrite Hcalls.
    rewrite <- (app_nil_r (directory_calls s)).
    apply directory_calls_no_GetMessage. intros [].
  - intros dir Hdir Hopen.
    destruct (main_without_log s dir Hdir Hopen) as (w & Hrun & Hcalls).
    exists w. split; [exact Hrun|]. rewrite Hcalls.
    rewrite <- (app_nil_r (directory_calls s)).
    apply directory_calls_no_GetMessage. intros [].
  - intros dir e Hdir Hopen Hclass.
    destruct (main_reaches_window s dir Hdir Hopen) as (w0 & Hmain & Hc0).
    destruct (main_window_class_fails s w0 e Hclass) as (w & Hrun & Hcalls).
    exists w. rewrite Hmain. split; [exact Hrun|]. rewrite Hcalls, Hc0.
    apply directory_calls_no_GetMessage. cbn. intuition discriminate.
  - intros dir u e Hdir Hopen Hclass Hwin.
    destruct (main_reaches_window s dir Hdir Hopen) as (w0 & Hmain & Hc0).
    destruct (main_window_create_fails s w0 u e Hclass Hwin)
      as (w & Hrun & Hcalls).
    exists w. rewrite Hmain. split; [exact Hrun|]. rewrite Hcalls, Hc0.
    apply directory_calls_no_GetMessage. cbn. intuition discriminate.
  - intros dir u hwnd m Hq Hdir Hopen Hclass Hwin Hfin Hzero.
    destruct (main_runs P Hq s dir u hwnd Hdir Hopen Hclass Hwin)
      as (w' & Hrun & _).
    exists w'. rewrite Hrun.
    unfold loop_outcome. rewrite Hfin, Hzero. reflexivity.
Qed.

End RunClaims.

(** ** The claims on concrete inputs *)

Lemma demo_size_query_nonneg : size_query_nonneg demo_platform.
Proof.
  intros src. cbn. unfold utf8_WideCharToMultiByte.
  destruct src; cbn [fst Z.eqb]; lia.
Qed.

Lemma demo_healthy : healthy demo_platform.
Proof. intros n. reflexivity. Qed.

(** Scenario B of the specification: a USB arrival with the path
    [\\?\USB#VID_1234]. *)
Example usb_arrival_logged :
  logged_by demo_platform usb_arrival_msg
  = ["USB Device Plugged In: \\?\USB#VID_1234"%string].
Proof. reflexivity. Qed.

(** Scenario C: the unit mask [0b100] is drive C. *)
Example volume_mask_4_is_C :
  logged_by demo_platform
    (mkMSG WM_DEVICECHANGE DBT_DEVICEARRIVAL (Some (volume_hdr 4)))
  = ["Volume/Drive Mounted: C:\"%string].
Proof. reflexivity. Qed.

Lemma C1_witness :
  exists t w',
    WindowProc demo_platform 0 WM_DEVICECHANGE DBT_DEVICEARRIVAL
      (Some usb_arrival_hdr) initial_World = Some (TRUE, w') /\
    emits demo_platform initial_World w' [t] /\
    (says_usb t = true <->
     dbcc_classguid usb_arrival_hdr = GUID_DEVINTERFACE_USB_DEVICE) /\
    (says_non_usb t = true <->
     dbcc_classguid usb_arrival_hdr <> GUID_DEVINTERFACE_USB_DEVICE) /\
    (says_interface_arrival t = true <->
     DBT_DEVICEARRIVAL = DBT_DEVICEARRIVAL) /\
    (says_interface_removal t = true <->
     DBT_DEVICEARRIVAL = DBT_DEVICEREMOVECOMPLETE).
Proof.
  apply (C1_usb_class_iff_guid demo_platform 0 DBT_DEVICEARRIVAL
           usb_arrival_hdr initial_World).
  - exact demo_size_query_nonneg.
  - left. reflexivity.
  - reflexivity.
Defined.

Lemma C2_witness :
  0 <= 4 < 2 ^ 26 /\ DecodeDriveLetter 4 = letter_at 2.
Proof.
  assert (H : 0 <= 4 < 2 ^ 26) by lia.
  split; [exact H|].
  apply (proj1 (proj2 (C2_drive_letter_lowest_set_bit 4 H)) 2);
    [lia | reflexivity].
Defined.

(** C3, as the specification states it, fails: a payload that announces a
    device interface and ends after its header, and one whose device name
    has no terminator, make the procedure read outside the block. *)
Lemma C3_counterexample :
  List.length truncated_block = 12%nat /\
  dbch_devicetype (view truncated_block) = DBT_DEVTYP_DEVICEINTERFACE /\
  WindowProc_raw demo_platform 0 WM_DEVICECHANGE DBT_DEVICEARRIVAL
    (Some truncated_block) initial_World = BadRead /\
  WindowProc_raw demo_platform 0 WM_DEVICECHANGE DBT_DEVICEARRIVAL
    (Some unterminated_block) initial_World = BadRead /\
  ~ (forall lPar : option Block,
       exists r w',
         WindowProc_raw demo_platform 0 WM_DEVICECHANGE DBT_DEVICEARRIVAL
           lPar initial_World = Returned r w').
Proof.
  split; [reflexivity|]. split; [reflexivity|].
  split; [reflexivity|]. split; [reflexivity|].
  intros H. destruct (H (Some truncated_block)) as (r & w' & E).
  discriminate E.
Qed.

Lemma C3_witness :
  WindowProc_raw demo_platform 0 WM_DEVICECHANGE DBT_DEVICEARRIVAL
    (Some truncated_block) initial_World = BadRead /\
  WindowProc_raw negative_size_platform 0 WM_DEVICECHANGE DBT_DEVICEARRIVAL
    (Some usb_arrival_block) initial_World = Threw /\
  exists r w',
    WindowProc_raw demo_platform 0 WM_DEVICECHANGE DBT_DEVICEARRIVAL
      (Some usb_arrival_block) initial_World = Returned r w' /\
    emits demo_platform initial_World w'
      (logged_by demo_platform
         (mkMSG WM_DEVICECHANGE DBT_DEVICEARRIVAL
                (Some (view usb_arrival_block)))) /\
    (List.length
       (logged_by demo_platform
          (mkMSG WM_DEVICECHANGE DBT_DEVICEARRIVAL
                 (Some (view usb_arrival_block))))
     <= 1)%nat /\
    forallb well_formed_event
      (logged_by demo_platform
         (mkMSG WM_DEVICECHANGE DBT_DEVICEARRIVAL
                (Some (view usb_arrival_block))))
    = true.
Proof.
  split; [|split].
  - apply (proj1 (C3_total_on_readable_payloads demo_platform 0
                    WM_DEVICECHANGE DBT_DEVICEARRIVAL (Some truncated_block)
                    initial_World)).
    reflexivity.
  - apply (proj1 (proj2 (C3_total_on_readable_payloads negative_size_platform
                           0 WM_DEVICECHANGE DBT_DEVICEARRIVAL
                           (Some usb_arrival_block) initial_World)));
      reflexivity.
  - apply (proj2 (proj2 (C3_total_on_readable_payloads demo_platform 0
                           WM_DEVICECHANGE DBT_DEVICEARRIVAL
                           (Some usb_arrival_block) initial_World)));
      reflexivity.
Defined.

(** The block of the USB arrival is logged as the record is. *)
Example usb_arrival_block_logged :
  match WindowProc_raw demo_platform 0 WM_DEVICECHANGE DBT_DEVICEARRIVAL
          (Some usb_arrival_block) initial_World with
  | Returned r w => Some (r, console_texts w)
  | _ => None
  end
  = Some (TRUE, ["USB Device Plugged In: \\?\USB#VID_1234"%string]).
Proof. vm_compute. reflexivity. Qed.

(** C4, as the specification states it, fails: an arrival of device type
    [DBT_DEVTYP_PORT] logs nothing at all. *)
Lemma C4_counterexample :
  dbch_devicetype port_hdr <> DBT_DEVTYP_DEVICEINTERFACE /\
  dbch_devicetype port_hdr <> DBT_DEVTYP_VOLUME /\
  logged_by demo_platform
    (mkMSG WM_DEVICECHANGE DBT_DEVICEARRIVAL (Some port_hdr)) = [] /\
  ~ (exists t,
       In t (logged_by demo_platform
               (mkMSG WM_DEVICECHANGE DBT_DEVICEARRIVAL (Some port_hdr)))).
Proof.
  repeat split; try discriminate.
  intros [t H]. exact H.
Qed.

Lemma C4_witness :
  WindowProc demo_platform 0 WM_DEVICECHANGE DBT_DEVICEREMOVECOMPLETE
    (Some port_hdr) initial_World = Some (TRUE, initial_World).
Proof.
  apply (C4_other_device_type_logs_nothing demo_platform 0
           DBT_DEVICEREMOVECOMPLETE port_hdr initial_World).
  - right. reflexivity.
  - discriminate.
  - discriminate.
Defined.

(** C5, as the specification states it, fails for removals: the line logged
    for the removal of drive C is the line logged for the removal of drive
    E, so no reading of the line gives the drive letter. *)
Lemma C5_counterexample :
  ~ (exists letter_of : string -> ascii,
       forall mask t,
         0 <= mask < 2 ^ 26 ->
         In t (logged_by demo_platform
                 (mkMSG WM_DEVICECHANGE DBT_DEVICEREMOVECOMPLETE
                        (Some (volume_hdr mask)))) ->
         letter_of t = DecodeDriveLetter mask).
Proof.
  intros [letter_of H].
  assert (HC : letter_of "Volume/Drive Removed."%string = "C"%char).
  { apply (H 4); [lia | left; reflexivity]. }
  assert (HE : letter_of "Volume/Drive Removed."%string = "E"%char).
  { apply (H 16); [lia | left; reflexivity]. }
  rewrite HC in HE. discriminate.
Qed.

Lemma C5_witness :
  (exists w',
     WindowProc demo_platform 0 WM_DEVICECHANGE DBT_DEVICEARRIVAL
       (Some (volume_hdr 12)) initial_World = Some (TRUE, w') /\
     emits demo_platform initial_World w'
       [("Volume/Drive Mounted: "
         ++ String (DecodeDriveLetter (dbcv_unitmask (volume_hdr 12))) ":\")%string] /\
     (dbcv_unitmask (volume_hdr 12) = 0 ->
      DecodeDriveLetter (dbcv_unitmask (volume_hdr 12)) = "?"%char) /\
     (forall i, Z.testbit (dbcv_unitmask (volume_hdr 12)) i = true ->
        (forall j, 0 <= j < i ->
                   Z.testbit (dbcv_unitmask (volume_hdr 12)) j = false) ->
        DecodeDriveLetter (dbcv_unitmask (volume_hdr 12)) = letter_at i)) /\
  (exists w',
     WindowProc demo_platform 0 WM_DEVICECHANGE DBT_DEVICEREMOVECOMPLETE
       (Some (volume_hdr 12)) initial_World = Some (TRUE, w') /\
     emits demo_platform initial_World w' ["Volume/Drive Removed."%string]).
Proof.
  apply (C5_volume_arrival_letter_removal_plain demo_platform 0
           (volume_hdr 12) initial_World).
  - reflexivity.
  - cbn. lia.
Defined.

Lemma C6_witness :
  exists w',
    main demo_platform demo_session = loop_outcome demo_session w' /\
    In "Starting message loop. Monitoring active..."%string (file_texts w') /\
    In "WARNING: Failed to register device notifications. USB/Device events may not be logged accurately."%string
       (file_texts w') /\
    count says_warning (file_texts w') = 1%nat /\
    count says_clipboard (file_texts w')
    = List.length (filter is_clipboard_update (handled demo_session)).
Proof.
  apply (C6_device_registration_failure_not_fatal demo_platform demo_session
           "C:\app"%string tt tt 77 5).
  - exact demo_size_query_nonneg.
  - exact demo_healthy.
  - reflexivity.
  - reflexivity.
  - reflexivity.
  - reflexivity.
  - reflexivity.
  - reflexivity.
Defined.

Lemma C7_witness :
  (exists w, main demo_platform no_directory_session = Exited 1 w /\
             ~ In Call_GetMessage (os_calls w)) /\
  (exists w, main demo_platform demo_session = Exited 0 w).
Proof.
  split.
  - apply (proj1 (C7_fatal_startup_exits_nonzero demo_platform
                    no_directory_session) "current_path failed"%string).
    reflexivity.
  - apply (proj2 (proj2 (proj2 (proj2
             (C7_fatal_startup_exits_nonzero demo_platform demo_session))))
             "C:\app"%string tt 77 quit_msg).
    + exact demo_size_query_nonneg.
    + reflexivity.
    + reflexivity.
    + reflexivity.
    + reflexivity.
    + reflexivity.
    + reflexivity.
Defined.


(** The order on the example: the arrival sent during the first call comes
    before the clipboard update that call retrieves. *)
Example demo_calls_logged_in_order :
  flat_map (logged_by demo_platform) (delivered demo_calls)
  = ["USB Device Plugged In: \\?\USB#VID_1234"%string;
     "Clipboard content changed (Copy/Paste detected)."%string;
     "Clipboard content changed (Copy/Paste detected)."%string].
Proof. reflexivity. Qed.



(** An empty device name is logged with an empty path. *)
Example nameless_removal_logged :
  logged_by demo_platform
    (mkMSG WM_DEVICECHANGE DBT_DEVICEREMOVECOMPLETE (Some nameless_hdr))
  = ["Non-USB Device Interface Removal: "%string].
Proof. reflexivity. Qed.

Lemma C10_witness :
  (forall (hwnd wPar : Z) (lPar : LPARAM) (w : World),
     exists w',
       WindowProc demo_platform hwnd WM_DEVICECHANGE wPar lPar w
       = Some (TRUE, w') /\
       calls_made w w'
         (calls_by demo_platform (mkMSG WM_DEVICECHANGE wPar lPar)) /\
       existsb is_DefWindowProc
         (calls_by demo_platform (mkMSG WM_DEVICECHANGE wPar lPar)) = false) /\
  (forall (hwnd uMsg wPar : Z) (lPar : LPARAM) (w : World),
     exists r w',
       WindowProc demo_platform hwnd uMsg wPar lPar w = Some (r, w') /\
       calls_made w w' (calls_by demo_platform (mkMSG uMsg wPar lPar)) /\
       (existsb is_DefWindowProc
          (calls_by demo_platform (mkMSG uMsg wPar lPar)) = true
        <-> uMsg <> WM_DESTROY /\ uMsg <> WM_CLIPBOARDUPDATE
            /\ uMsg <> WM_DEVICECHANGE)).
Proof.
  apply (C10_device_change_always_handled demo_platform).
  exact demo_size_query_nonneg.
Defined.

(** The whole run of the example session: the device registration fails,
    one arrival and two clipboard updates are delivered, then the loop is
    ended with code 0. *)
Example demo_session_log :
  match main demo_platform demo_session with
  | Exited code w => Some (code, file_texts w)
  | _ => None
  end
  = Some (0,
      ["--- SecurityMonitor Started ---"%string;
       "Project Directory: C:\app"%string;
       "Message-only window created successfully."%string;
       "Successfully registered clipboard listener."%string;
       "ERROR in RegisterDeviceNotification: error text (Code: 5)"%string;
       "WARNING: Failed to register device notifications. USB/Device events may not be logged accurately."%string;
       "Starting message loop. Monitoring active..."%string;
       "USB Device Plugged In: \\?\USB#VID_1234"%string;
       "Clipboard content changed (Copy/Paste detected)."%string;
       "Clipboard content changed (Copy/Paste detected)."%string;
       "--- SecurityMonitor Stopping ---"%string;
       "Window destroyed, stopping message loop."%string]).
Proof. vm_compute. reflexivity. Qed.

(** A failing [GetModuleFileNameW] alone is not fatal: the current directory
    is used and the run goes on. *)
Example module_file_name_fallback :
  match main demo_platform
          (mkSession (Failed 2) (inl "C:\cwd"%string) true ""%string
                     (Succeeded tt) (Succeeded 77) (Succeeded tt)
                     (Succeeded tt) demo_calls [] [])
  with
  | Exited code w => Some (code, g_logFilePath w, map text (cerr w))
  | _ => None
  end
  = Some (0, "C:\cwd\SecurityMonitorLog.txt"%string,
          ["FATAL: Failed to get executable path. Error code: 2"%string;
           "ERROR: Log file is not open. Cannot log: ERROR in GetExecutableDirectory/GetModuleFileNameW: error text (Code: 2)"%string]).
Proof. vm_compute. reflexivity. Qed.

(** * Further properties of the code *)

(** ** The window procedure as a sequence of primitive steps *)

Lemma do_steps_app (P : Platform) (a b : list Step) (w : World) :
  do_steps P (a ++ b) w = do_steps P b (do_steps P a w).
Proof. revert w. induction a as [|st a IH]; intros w; cbn; auto. Qed.

Lemma step_texts_app (a b : list Step) :
  step_texts (a ++ b) = step_texts a ++ step_texts b.
Proof. apply flat_map_app. Qed.

Lemma step_calls_app (a b : list Step) :
  step_calls (a ++ b) = step_calls a ++ step_calls b.
Proof. apply flat_map_app. Qed.

(** Reads the steps that lead from [w0] to a world built by [LogEvent] and
    [os_call]. *)
Ltac steps_from w0 t :=
  lazymatch t with
  | w0 => constr:(@nil Step)
  | LogEvent _ ?m ?t' =>
      let r := steps_from w0 t' in constr:(r ++ [StepLog m])
  | os_call ?c ?t' =>
      let r := steps_from w0 t' in constr:(r ++ [StepCall c])
  end.

Section Steps.

Variable P : Platform.

Lemma WindowProc_steps (hwnd uMsg wPar : Z) (lPar : LPARAM) (w w' : World)
      (r : Z) :
  WindowProc P hwnd uMsg wPar lPar w = Some (r, w') ->
  exists sts,
    w' = do_steps P sts w /\
    step_texts sts = logged_by P (mkMSG uMsg wPar lPar) /\
    step_calls sts = calls_by P (mkMSG uMsg wPar lPar).
Proof.
  unfold logged_by, calls_by, WindowProc. cbn [message wParam lParam].
  destruct lPar as [pHdr|]; rewrite ?narrow_device_path_run;
    [destruct (decoded_path P (dbcc_name pHdr)) as [s|]|];
    repeat match goal with
           | |- context [if ?b then _ else _] => destruct b
           end;
    intros H; inversion H; subst; clear H;
    lazymatch goal with
    | |- exists sts, ?t = do_steps _ sts ?w0 /\ _ =>
        let l := steps_from w0 t in exists l
    end;
    (split; [reflexivity|]);
    unfold console_texts; cbn [os_call os_calls cout];
    rewrite ?LogEvent_os_calls, ?LogEvent_cout;
    cbn [map cout os_calls app initial_World os_call text];
    (split; reflexivity).
Qed.

End Steps.

Section StepsRun.

Variable P : Platform.
Hypothesis Hq : size_query_nonneg P.

Lemma deliver_steps (hwnd : Z) (ms : list MSG) : forall w,
  exists w' sts,
    deliver P hwnd ms w = Some w' /\
    w' = do_steps P sts w /\
    step_texts sts = flat_map (logged_by P) ms /\
    step_calls sts = flat_map (calls_by P) ms.
Proof.
  induction ms as [|m ms IH]; intros w; cbn [deliver flat_map].
  - exists w, []. auto.
  - destruct (WindowProc_returns P hwnd (message m) (wParam m) (lParam m) w Hq)
      as (r & w1 & Hrun).
    rewrite Hrun. apply WindowProc_steps in Hrun.
    destruct Hrun as (sts1 & -> & Ht1 & Hc1).
    destruct (IH (do_steps P sts1 w)) as (w' & sts2 & Hrest & -> & Ht2 & Hc2).
    exists (do_steps P sts2 (do_steps P sts1 w)), (sts1 ++ sts2).
    split; [exact Hrest|]. split; [now rewrite do_steps_app|].
    rewrite step_texts_app, step_calls_app, Ht1, Ht2, Hc1, Hc2.
    now destruct m.
Qed.

(** The loop changes the world by primitive steps only; the texts of the
    [LogEvent] steps are those of the delivered messages, and the calls are
    those of [loop_calls]. *)
Lemma message_loop_steps (calls : list GetMessageCall) : forall w,
  exists w' sts,
    message_loop P calls w
    = match final_msg calls with
      | None => LoopWaiting w'
      | Some m => LoopEnded m w'
      end /\
    w' = do_steps P sts w /\
    step_texts sts = flat_map (logged_by P) (delivered calls) /\
    step_calls sts = loop_calls P calls.
Proof.
  induction calls as [|c calls IH]; intros w;
    cbn [message_loop final_msg delivered loop_calls].
  - exists (os_call Call_GetMessage w), [StepCall Call_GetMessage]. auto.
  - destruct (deliver_steps (g_hwnd (os_call Call_GetMessage w))
                (sent_during c) (os_call Call_GetMessage w))
      as (w1 & sts1 & Hsent & Hw1 & Ht1 & Hc1).
    rewrite Hsent.
    assert (Hw1' : w1 = do_steps P (StepCall Call_GetMessage :: sts1) w)
      by exact Hw1.
    clear Hw1. destruct (0 <? gm_return c).
    + match goal with
      | |- context [WindowProc P ?h ?a ?b ?l ?w0] =>
          destruct (WindowProc_returns P h a b l w0 Hq) as (r & w2 & Hrun)
      end.
      rewrite Hrun. apply WindowProc_steps in Hrun.
      destruct Hrun as (sts2 & Hw2 & Ht2 & Hc2).
      destruct (IH w2) as (w' & sts3 & Hloop & Hw' & Ht3 & Hc3).
      exists w', ((StepCall Call_GetMessage :: sts1)
                  ++ [StepCall Call_TranslateMessage;
                      StepCall Call_DispatchMessage]
                  ++ sts2 ++ sts3).
      split; [exact Hloop|]. split; [|split].
      * rewrite !do_steps_app, <- Hw1'. cbn [do_steps do_step].
        now rewrite <- Hw2.
      * rewrite !step_texts_app, flat_map_app. cbn [flat_map step_texts app].
        fold (step_texts sts1). rewrite Ht1, Ht2, Ht3.
        now destruct (gm_msg c).
      * rewrite !step_calls_app. cbn [flat_map step_calls app].
        fold (step_calls sts1). rewrite Hc1, Hc2, Hc3.
        rewrite <- ?app_assoc. cbn [app]. now destruct (gm_msg c).
    + exists w1, (StepCall Call_GetMessage :: sts1).
      split; [reflexivity|]. split; [exact Hw1'|]. split; [exact Ht1|].
      cbn [flat_map step_calls app]. fold (step_calls sts1).
      now rewrite Hc1, app_nil_r.
Qed.

End StepsRun.

(** ** Nothing written is taken back *)

Section Growth.

Variable P : Platform.

Lemma grows_refl (w : World) : grows w w.
Proof.
  unfold grows. repeat split; try (exists []; now rewrite app_nil_r); auto.
Qed.

Lemma grows_trans (w1 w2 w3 : World) :
  grows w1 w2 -> grows w2 w3 -> grows w1 w3.
Proof.
  intros ([a1 A1] & [b1 B1] & [c1 C1] & [d1 D1] & K1 & O1 & H1 & L1 & F1)
         ([a2 A2] & [b2 B2] & [c2 C2] & [d2 D2] & K2 & O2 & H2 & L2 & F2).
  unfold grows. rewrite A2, A1, B2, B1, C2, C1, D2, D1, O2, O1, H2, H1, L2, L1.
  rewrite <- !app_assoc.
  repeat split; eauto. lia.
Qed.

Lemma os_call_grows (c : OsCall) (w : World) : grows w (os_call c w).
Proof.
  unfold grows. cbn.
  repeat split; try (exists []; now rewrite app_nil_r); eauto.
Qed.

Lemma LogEvent_grows (msg : string) (w : World) : grows w (LogEvent P msg w).
Proof.
  rewrite LogEvent_eq. cbv zeta.
  destruct w as [[op fb ea wr to pe] path h co ce k oc].
  unfold grows, stream_put. cbn.
  destruct op; cbn; [destruct fb; cbn;
    [|destruct (disk_accepts P (List.length wr)); cbn]|];
    rewrite <- ?app_assoc;
    repeat split;
    try (exists []; now rewrite app_nil_r); try (eexists; reflexivity);
    auto; try lia; try discriminate.
Qed.

Lemma do_steps_grows (sts : list Step) : forall w, grows w (do_steps P sts w).
Proof.
  induction sts as [|st sts IH]; intros w; cbn [do_steps].
  - apply grows_refl.
  - eapply grows_trans; [|apply IH].
    destruct st; [apply LogEvent_grows | apply os_call_grows].
Qed.

End Growth.

(** X1: the message loop only appends.  Whatever the messages and whether
    or not the disk takes the writes, the log file, the console, the error
    stream and the record of system calls after the loop start with what
    they held before it; the loop neither opens nor closes the log stream,
    never clears its fail bit, and leaves the window handle and the path of
    the log alone. *)
Theorem X1_loop_appends_only (P : Platform) (calls : list GetMessageCall)
        (w : World) :
  size_query_nonneg P ->
  exists w',
    message_loop P calls w
    = match final_msg calls with
      | None => LoopWaiting w'
      | Some m => LoopEnded m w'
      end /\
    grows w w'.
Proof.
  intros Hq.
  destruct (message_loop_steps P Hq calls w) as (w' & sts & Hrun & -> & _ & _).
  eexists. split; [exact Hrun|]. apply do_steps_grows.
Qed.

(** ** The three ways [LogEvent] can go *)

Section LogEventCases.

Variable P : Platform.

Lemma clock_report_works (k : nat) : clock_works P -> clock_report P k = [].
Proof.
  intros Hc. unfold clock_report. now destruct (Hc k) as [ts ->].
Qed.

(** The stream is usable and the disk takes the line. *)
Lemma LogEvent_written (msg : string) (w : World) :
  sink_ready w ->
  disk_accepts P (List.length (written (g_logFile w))) = true ->
  LogEvent P msg w
  = mkWorld
      (mkStream true false (earlier (g_logFile w))
         (written (g_logFile w) ++ [mkLine (stamp_at P (clock_reads w)) msg])
         (torn (g_logFile w)) (pending (g_logFile w)))
      (g_logFilePath w) (g_hwnd w)
      (cout w ++ [mkLine (stamp_at P (clock_reads w)) msg])
      (cerr w ++ clock_report P (clock_reads w))
      (S (clock_reads w)) (os_calls w).
Proof.
  intros [Ho Hf] Ha. rewrite LogEvent_eq. cbv zeta.
  unfold stream_put. rewrite Ho, Hf, Ha. reflexivity.
Qed.


(** The stream has failed before. *)
Lemma LogEvent_after_failure (msg : string) (w : World) :
  is_open (g_logFile w) = true ->
  failbit (g_logFile w) = true ->
  LogEvent P msg w
  = let k := clock_reads w in
    mkWorld
      (g_logFile w) (g_logFilePath w) (g_hwnd w)
      (cout w ++ [mkLine (stamp_at P k) msg])
      ((cerr w ++ clock_report P k) ++ clock_report P (S k)
       ++ [mkLine (stamp_at P (S k)) (write_failure_text w)])
      (S (S k)) (os_calls w).
Proof.
  intros Ho Hf. rewrite LogEvent_eq. cbv zeta.
  unfold stream_put. rewrite Ho, Hf, Hf. reflexivity.
Qed.

(** The stream is not open. *)
Lemma LogEvent_not_open (msg : string) (w : World) :
  is_open (g_logFile w) = false ->
  LogEvent P msg w
  = let k := clock_reads w in
    mkWorld
      (g_logFile w) (g_logFilePath w) (g_hwnd w)
      (cout w ++ [mkLine (stamp_at P k) msg])
      ((cerr w ++ clock_report P k) ++ clock_report P (S k)
       ++ [mkLine (stamp_at P (S k))
                  ("ERROR: Log file is not open. Cannot log: " ++ msg)])
      (S (S k)) (os_calls w).
Proof.
  intros Ho. rewrite LogEvent_eq. cbv zeta. rewrite Ho. reflexivity.
Qed.

End LogEventCases.

(** ** Runs of primitive steps, by the state of the log stream *)

Section StepRuns.

Variable P : Platform.

(** Every write is taken: one line and one reading of the clock for each
    text; nothing on the error stream while the clock can be read. *)
Lemma do_steps_healthy (sts : list Step) : forall w,
  healthy P -> sink_ready w ->
  g_logFile (do_steps P sts w)
  = mkStream true false (earlier (g_logFile w))
      (written (g_logFile w) ++ stamp_from P (clock_reads w) (step_texts sts))
      (torn (g_logFile w)) (pending (g_logFile w)) /\
  cout (do_steps P sts w)
  = cout w ++ stamp_from P (clock_reads w) (step_texts sts) /\
  (clock_works P -> cerr (do_steps P sts w) = cerr w) /\
  clock_reads (do_steps P sts w)
  = (clock_reads w + List.length (step_texts sts))%nat.
Proof.
  induction sts as [|[msg|c] sts IH]; intros w Hd Hr; cbn [do_steps do_step].
  - cbn. rewrite !app_nil_r, Nat.add_0_r. destruct Hr as [Ho Hf].
    destruct w as [[op fb ea wr to pe] path h co ce k oc]. cbn in *.
    subst. auto.
  - pose proof (LogEvent_written P msg w Hr (Hd _)) as E.
    assert (Hr1 : sink_ready (LogEvent P msg w))
      by (rewrite E; split; reflexivity).
    destruct (IH _ Hd Hr1) as (Hw & Hc & He & Hk).
    rewrite Hw, Hc, Hk. revert He.
    generalize (do_steps P sts (LogEvent P msg w)). intros w1 He.
    rewrite E in He |- *.
    cbn [g_logFile earlier written torn pending cout cerr clock_reads
         step_texts flat_map app stamp_from List.length] in He |- *.
    fold (step_texts sts). rewrite <- !app_assoc. cbn [app].
    repeat split; trivial; try lia.
    intros Hclock. rewrite (He Hclock).
    now rewrite clock_report_works, app_nil_r.
  - assert (Hr1 : sink_ready (os_call c w)) by exact Hr.
    destruct (IH _ Hd Hr1) as (Hw & Hc & He & Hk).
    rewrite Hw, Hc, Hk. cbn [step_texts flat_map app].
    fold (step_texts sts). auto.
Qed.

(** The stream has failed: the stream and the file stay as they are, every
    text still goes to the console and costs one line on the error
    stream. *)
Lemma do_steps_after_failure (sts : list Step) : forall w,
  is_open (g_logFile w) = true ->
  failbit (g_logFile w) = true ->
  g_logFile (do_steps P sts w) = g_logFile w /\
  (exists new, cout (do_steps P sts w) = cout w ++ new /\
               map text new = step_texts sts) /\
  (clock_works P ->
   map text (cerr (do_steps P sts w))
   = map text (cerr w)
     ++ map (fun _ => write_failure_text w) (step_texts sts)).
Proof.
  induction sts as [|[msg|c] sts IH]; intros w Ho Hf; cbn [do_steps do_step].
  - cbn. rewrite app_nil_r. repeat split; trivial.
    exists []. now rewrite app_nil_r.
  - pose proof (LogEvent_after_failure P msg w Ho Hf) as E. cbv zeta in E.
    assert (Eg : g_logFile (LogEvent P msg w) = g_logFile w)
      by (rewrite E; reflexivity).
    assert (Ec : cout (LogEvent P msg w)
                 = cout w ++ [mkLine (stamp_at P (clock_reads w)) msg])
      by (rewrite E; reflexivity).
    assert (Ee : clock_works P ->
                 map text (cerr (LogEvent P msg w))
                 = map text (cerr w) ++ [write_failure_text w]).
    { intros Hclock. rewrite E. cbn [cerr].
      rewrite !clock_report_works by exact Hclock.
      now rewrite app_nil_r, map_app. }
    assert (Ep : write_failure_text (LogEvent P msg w) = write_failure_text w)
      by (rewrite E; reflexivity).
    destruct (IH (LogEvent P msg w)) as (Hw & (new & Hc & Hn) & He);
      [now rewrite Eg | now rewrite Eg |].
    rewrite Hw, Hc, Eg, Ec.
    cbn [step_texts flat_map app map].
    fold (step_texts sts). rewrite <- !app_assoc. cbn [app].
    repeat split; trivial.
    + exists (mkLine (stamp_at P (clock_reads w)) msg :: new).
      cbn [map text]. now rewrite Hn.
    + intros Hclock. rewrite (He Hclock), (Ee Hclock), Ep.
      now rewrite <- app_assoc.
  - destruct (IH (os_call c w) Ho Hf) as (Hw & (new & Hc & Hn) & He).
    rewrite Hw, Hc. cbn [step_texts flat_map app].
    fold (step_texts sts). repeat split; trivial. now exists new.
Qed.


End StepRuns.

(** ** The loop, by the state of the log stream *)

(** X2: once a write to the log file has failed, the loop goes on but the
    stream and the file stay as they are: every later event still reaches
    the console and, while the clock can be read, each costs exactly one
    "FATAL: Failed to write to log file" line on the error stream. *)
Theorem X2_failed_stream_keeps_file_frozen (P : Platform)
        (calls : list GetMessageCall) (w : World) :
  size_query_nonneg P ->
  clock_works P ->
  is_open (g_logFile w) = true ->
  failbit (g_logFile w) = true ->
  exists w',
    message_loop P calls w
    = match final_msg calls with
      | None => LoopWaiting w'
      | Some m => LoopEnded m w'
      end /\
    g_logFile w' = g_logFile w /\
    console_texts w'
    = console_texts w ++ flat_map (logged_by P) (delivered calls) /\
    map text (cerr w')
    = map text (cerr w)
      ++ map (fun _ => write_failure_text w)
             (flat_map (logged_by P) (delivered calls)).
Proof.
  intros Hq Hclock Ho Hf.
  destruct (message_loop_steps P Hq calls w) as (w' & sts & Hrun & -> & Ht & _).
  eexists. split; [exact Hrun|].
  destruct (do_steps_after_failure P sts w Ho Hf)
    as (Hw & (new & Hc & Hn) & He).
  rewrite <- Ht. repeat split; trivial.
  - unfold console_texts. now rewrite Hc, map_app, Hn.
  - exact (He Hclock).
Qed.


(** X4: when the disk takes every write and the clock can be read, the loop
    reads the clock exactly once for each event, the event's line in the
    file and on the console carries the timestamp of that reading, nothing
    else changes in the stream of the log, and nothing is sent to the error
    stream. *)
Theorem X4_one_clock_reading_per_event (P : Platform)
        (calls : list GetMessageCall) (w : World) :
  size_query_nonneg P ->
  healthy P ->
  clock_works P ->
  sink_ready w ->
  exists w',
    message_loop P calls w
    = match final_msg calls with
      | None => LoopWaiting w'
      | Some m => LoopEnded m w'
      end /\
    g_logFile w'
    = mkStream true false (earlier (g_logFile w))
        (written (g_logFile w)
         ++ stamp_from P (clock_reads w)
                       (flat_map (logged_by P) (delivered calls)))
        (torn (g_logFile w)) (pending (g_logFile w)) /\
    cout w'
    = cout w
      ++ stamp_from P (clock_reads w)
                    (flat_map (logged_by P) (delivered calls)) /\
    cerr w' = cerr w /\
    clock_reads w'
    = (clock_reads w
       + List.length (flat_map (logged_by P) (delivered calls)))%nat.
Proof.
  intros Hq Hd Hclock Hr.
  destruct (message_loop_steps P Hq calls w) as (w' & sts & Hrun & -> & Ht & _).
  eexists. split; [exact Hrun|].
  destruct (do_steps_healthy P sts w Hd Hr) as (Hw & Hc & He & Hk).
  rewrite <- Ht. auto.
Qed.

(** ** The end of the loop *)







(** ** More on the window procedure *)

(** X6: the window procedure asks for the end of the loop only when the
    window is destroyed: [PostQuitMessage] is called once, with exit code 0,
    for [WM_DESTROY], and never for any other message. *)
Theorem X6_quit_posted_only_on_destroy (P : Platform) (hwnd uMsg wPar : Z)
        (lPar : LPARAM) (w : World) :
  size_query_nonneg P ->
  exists r w',
    WindowProc P hwnd uMsg wPar lPar w = Some (r, w') /\
    calls_made w w' (calls_by P (mkMSG uMsg wPar lPar)) /\
    filter is_PostQuitMessage (calls_by P (mkMSG uMsg wPar lPar))
    = if uMsg =? WM_DESTROY then [Call_PostQuitMessage 0] else [].
Proof.
  intros Hq.
  destruct (WindowProc_returns P hwnd uMsg wPar lPar w Hq) as (r & w' & Hrun).
  exists r, w'. split; [exact Hrun|]. split.
  { eapply WindowProc_calls; eauto. }
  unfold calls_by, WindowProc. cbn [message wParam lParam].
  destruct lPar as [pHdr|]; rewrite ?narrow_device_path_run;
    [destruct (decoded_path P (dbcc_name pHdr)) as [s|]|];
    repeat match goal with
           | |- context [if ?b then _ else _] => destruct b
           end;
    cbn [os_call os_calls]; rewrite ?LogEvent_os_calls; reflexivity.
Qed.

(** X7: a device change that is neither an arrival nor a completed removal,
    and an arrival or removal that comes without a payload, are answered
    with TRUE and leave no trace: nothing is logged and no call is made. *)
Theorem X7_other_device_changes_leave_no_trace (P : Platform)
        (hwnd wPar : Z) (lPar : LPARAM) (w : World) :
  (wPar <> DBT_DEVICEARRIVAL /\ wPar <> DBT_DEVICEREMOVECOMPLETE)
  \/ lPar = None ->
  WindowProc P hwnd WM_DEVICECHANGE wPar lPar w = Some (TRUE, w).
Proof.
  intros H. unfold WindowProc.
  change (WM_DEVICECHANGE =? WM_DESTROY) with false.
  change (WM_DEVICECHANGE =? WM_CLIPBOARDUPDATE) with false.
  change (WM_DEVICECHANGE =? WM_DEVICECHANGE) with true. cbv iota.
  destruct H as [[Ha Hr] | ->].
  - apply Z.eqb_neq in Ha, Hr. rewrite Ha, Hr. reflexivity.
  - destruct (_ || _); reflexivity.
Qed.

(** ** More on the unit-mask scan *)

Lemma scan_unitmask_ext (r : nat) : forall (i m1 m2 : Z),
  0 <= i ->
  (forall j, i <= j < i + Z.of_nat r -> Z.testbit m1 j = Z.testbit m2 j) ->
  scan_unitmask r i m1 = scan_unitmask r i m2.
Proof.
  induction r as [|r IH]; intros i m1 m2 Hi Hsame; [reflexivity|].
  cbn [scan_unitmask]. rewrite !land_single_bit by lia.
  rewrite (Hsame i) by lia.
  destruct (Z.testbit m2 i); cbn [negb]; [reflexivity|].
  apply IH; [lia|]. intros j Hj. apply Hsame. lia.
Qed.

Lemma scan_unitmask_cases (r : nat) : forall (i mask : Z),
  0 <= i ->
  ((forall j, i <= j < i + Z.of_nat r -> Z.testbit mask j = false) /\
   scan_unitmask r i mask = "?"%char)
  \/ (exists k, i <= k < i + Z.of_nat r /\
                Z.testbit mask k = true /\
                (forall j, i <= j < k -> Z.testbit mask j = false) /\
                scan_unitmask r i mask = char_of_int (65 + k)).
Proof.
  induction r as [|r IH]; intros i mask Hi.
  - left. split; [intros j Hj; lia | reflexivity].
  - cbn [scan_unitmask]. rewrite land_single_bit, negb_involutive by lia.
    destruct (Z.testbit mask i) eqn:Hb.
    + right. exists i. repeat split; trivial; try lia.
    + destruct (IH (i + 1) mask) as [[Hnone Hq] | (k & Hk & Hbk & Hlow & Hq)];
        [lia | left | right].
      * split; [|exact Hq]. intros j Hj.
        destruct (Z.eq_dec j i) as [->|]; [exact Hb | apply Hnone; lia].
      * exists k. repeat split; trivial; try lia. intros j Hj.
        destruct (Z.eq_dec j i) as [->|]; [exact Hb | apply Hlow; lia].
Qed.

(** X8: the drive letter depends on bits 0 to 25 of the unit mask only
    (bits 26 to 31 of the [DWORD] are never looked at), and it is always
    either ['?'], when none of these bits is set, or the letter ['A' + i] of
    the lowest set bit [i < 26]. *)
Theorem X8_drive_letter_reads_low_26_bits (mask : Z) :
  DecodeDriveLetter mask = DecodeDriveLetter (mask mod 2 ^ 26) /\
  (((forall j, 0 <= j < 26 -> Z.testbit mask j = false) /\
    DecodeDriveLetter mask = "?"%char)
   \/ (exists i, 0 <= i < 26 /\
                 Z.testbit mask i = true /\
                 (forall j, 0 <= j < i -> Z.testbit mask j = false) /\
                 DecodeDriveLetter mask = letter_at i)).
Proof.
  split.
  - apply scan_unitmask_ext; [lia|]. intros j Hj.
    rewrite Z.mod_pow2_bits_low; [reflexivity | cbn in Hj; lia].
  - destruct (scan_unitmask_cases 26 0 mask)
      as [[Hnone Hq] | (k & Hk & Hb & Hlow & Hq)]; [lia | left | right].
    + split; [|exact Hq]. intros j Hj. apply Hnone. cbn. lia.
    + cbn in Hk. exists k. repeat split; trivial; try lia.
      rewrite <- char_of_int_letter by lia. exact Hq.
Qed.

(** A unit mask whose only bit is above Z gives the sentinel. *)
Example drive_letter_bit_26 : DecodeDriveLetter (2 ^ 26) = "?"%char.
Proof. reflexivity. Qed.

(** ** The converted device path *)

(** X9: the path put in the log line has exactly as many bytes as the size
    query of the conversion announced: when the second call stores that
    many bytes the path is those bytes, and when it stores nothing the path
    is that many NUL bytes; a negative answer of the size query makes the
    construction of the string throw. *)
Theorem X9_path_has_announced_size (P : Platform) (name : list Z) :
  let src := wstring_of name in
  let size_needed := fst (WideCharToMultiByte P src 0) in
  let stored := snd (WideCharToMultiByte P src size_needed) in
  (size_needed < 0 -> decoded_path P name = None) /\
  (0 <= size_needed ->
   exists path,
     decoded_path P name = Some path /\
     String.length path = Z.to_nat size_needed /\
     (List.length stored = Z.to_nat size_needed ->
      path = string_of_list_ascii stored) /\
     (stored = [] ->
      path = string_of_list_ascii (repeat zero (Z.to_nat size_needed)))).
Proof.
  intros src size_needed stored.
  unfold decoded_path, narrow_device_path, string_fill.
  fold src. fold size_needed. fold stored. split.
  - intros Hneg. apply Z.ltb_lt in Hneg. rewrite Hneg. reflexivity.
  - intros Hpos. apply Z.ltb_ge in Hpos. rewrite Hpos. cbn [option_map fst].
    eexists. split; [reflexivity|]. split; [|split].
    + now rewrite string_of_list_ascii_length, store_into_length,
        repeat_length.
    + intros E. rewrite store_into_exact; [reflexivity|].
      now rewrite repeat_length.
    + intros ->. now rewrite store_into_nil.
Qed.

(** ** A whole run as a sequence of primitive steps *)

Lemma append_empty (t : string) : (t ++ "")%string = t.
Proof. induction t as [|a t IH]; cbn; [reflexivity | now rewrite IH]. Qed.

Lemma substring_empty (k : nat) : substring 0 k "" = ""%string.
Proof. destruct k; reflexivity. Qed.

Lemma map_text_stamp_from (P : Platform) (ts : list string) : forall k,
  map text (stamp_from P k ts) = ts.
Proof.
  induction ts as [|t ts IH]; intros k; cbn; [reflexivity | now rewrite IH].
Qed.

Lemma loop_outcome_inj (s : Session) (w1 w2 : World) :
  loop_outcome s w1 = loop_outcome s w2 -> w1 = w2.
Proof.
  unfold loop_outcome. destruct (final_msg (GetMessage_calls s)); congruence.
Qed.

Section WholeRun.

Variable P : Platform.
Hypothesis Hq : size_query_nonneg P.


(** The window handle is not read by [LogEvent]. *)
Lemma LogEvent_set_hwnd (h : Z) (msg : string) (w : World) :
  LogEvent P msg (set_hwnd h w) = set_hwnd h (LogEvent P msg w).
Proof.
  rewrite !LogEvent_eq. cbv zeta. destruct w as [f path h0 co ce k oc].
  cbn [set_hwnd g_logFile g_logFilePath g_hwnd cout cerr clock_reads os_calls].
  destruct (is_open f); [destruct (failbit (stream_put _ _ _ f))|];
    reflexivity.
Qed.

Lemma do_steps_set_hwnd (h : Z) (sts : list Step) : forall w,
  do_steps P sts (set_hwnd h w) = set_hwnd h (do_steps P sts w).
Proof.
  induction sts as [|[msg|c] sts IH]; intros w; cbn [do_steps do_step].
  - reflexivity.
  - now rewrite LogEvent_set_hwnd, IH.
  - change (os_call c (set_hwnd h w)) with (set_hwnd h (os_call c w)).
    apply IH.
Qed.

Lemma register_notifications_steps (s : Session) (w : World) :
  exists sts,
    register_notifications P s w = do_steps P sts w /\
    step_texts sts = registration_texts P s /\
    step_calls sts = registration_calls s.
Proof.
  unfold register_notifications, RegisterDeviceNotifications,
    registration_texts, registration_calls, error_calls.
  destruct (AddClipboardFormatListener_result s);
    destruct (RegisterDeviceNotification_result s); cbn [negb];
    rewrite ?LogError_eq;
    lazymatch goal with
    | |- exists sts, ?t = do_steps _ sts ?w0 /\ _ =>
        let l := steps_from w0 t in
        let l' := eval cbn [app] in l in exists l'
    end;
    cbn [do_steps do_step step_texts step_calls flat_map app];
    repeat split; reflexivity.
Qed.

Lemma cleanup_steps (s : Session) (msg : MSG) (w : World) :
  exists sts,
    cleanup P s msg w
    = Exited (to_int (wParam msg))
        (if is_open (g_logFile (do_steps P sts w))
         then close_log P (do_steps P sts w)
         else do_steps P sts w) /\
    step_texts sts
    = "--- SecurityMonitor Stopping ---"
      :: flat_map (logged_by P) (DestroyWindow_sends s) /\
    step_calls sts
    = [Call_RemoveClipboardFormatListener; Call_DestroyWindow]
      ++ flat_map (calls_by P) (DestroyWindow_sends s).
Proof.
  unfold cleanup.
  match goal with
  | |- context [deliver P ?h ?ms ?w0] =>
      destruct (deliver_steps P Hq h ms w0)
        as (w1 & sts & Hd & Hw1 & Ht & Hc); rewrite Hd
  end.
  exists ([StepLog "--- SecurityMonitor Stopping ---";
           StepCall Call_RemoveClipboardFormatListener;
           StepCall Call_DestroyWindow] ++ sts).
  rewrite do_steps_app, step_texts_app, step_calls_app, Ht, Hc.
  cbn [do_steps do_step]. rewrite <- Hw1.
  repeat split; reflexivity.
Qed.

(** From the creation of the window on, [main] changes the world through
    [LogEvent] and calls into the system only, apart from storing the
    window handle and closing the log at the end. *)
Lemma main_window_steps (s : Session) (w : World) (u : unit) (hwnd : Z) :
  RegisterClassW_result s = Succeeded u ->
  CreateWindowExW_result s = Succeeded hwnd ->
  exists sts,
    main_window P s w
    = loop_outcome s (end_world P s (set_hwnd hwnd (do_steps P sts w))) /\
    step_texts sts = run_texts P s /\
    step_calls sts
    = window_calls ++ registration_calls s
      ++ loop_calls P (GetMessage_calls s) ++ cleanup_calls P s.
Proof.
  intros Hclass Hwin.
  unfold main_window, loop_outcome, end_world, run_texts, cleanup_texts,
    cleanup_calls.
  rewrite Hclass, Hwin.
  change (os_call Call_CreateWindowExW
            (os_call Call_GetModuleHandle
               (os_call Call_RegisterClassW
                  (os_call Call_GetModuleHandle w))))
    with (do_steps P (map StepCall window_calls) w).
  rewrite <- do_steps_set_hwnd.
  set (w0 := do_steps P (map StepCall window_calls) (set_hwnd hwnd w)).
  destruct (register_notifications_steps s
              (LogEvent P "Message-only window created successfully." w0))
    as (stsR & -> & HtR & HcR).
  match goal with
  | |- context [message_loop P ?cs ?w1] =>
      destruct (message_loop_steps P Hq cs w1)
        as (w2 & stsL & Hloop & Hw2 & HtL & HcL);
      rewrite Hloop; clear Hloop
  end.
  assert (Hstart :
    w2 = do_steps P
           (map StepCall window_calls
            ++ [StepLog "Message-only window created successfully."]
            ++ stsR
            ++ [StepLog "Starting message loop. Monitoring active..."]
            ++ stsL) (set_hwnd hwnd w)).
  { rewrite Hw2, !do_steps_app. reflexivity. }
  clear Hw2. subst w0.
  destruct (final_msg (GetMessage_calls s)) as [m|].
  - destruct (cleanup_steps s m w2) as (stsE & -> & HtE & HcE).
    exists (map StepCall window_calls
            ++ [StepLog "Message-only window created successfully."]
            ++ stsR
            ++ [StepLog "Starting message loop. Monitoring active..."]
            ++ stsL ++ stsE).
    replace (set_hwnd hwnd (do_steps P _ w)) with (do_steps P stsE w2).
    2:{ rewrite Hstart, <- do_steps_set_hwnd, <- !do_steps_app.
        now rewrite <- !app_assoc. }
    split; [reflexivity|].
    rewrite !step_texts_app, !step_calls_app, HtR, HcR, HtL, HcL, HtE, HcE.
    split; reflexivity.
  - match goal with
    | |- context [deliver P ?h ?ms ?w1] =>
        destruct (deliver_steps P Hq h ms w1)
          as (w3 & stsB & Hd & Hw3 & HtB & HcB); rewrite Hd
    end.
    exists (map StepCall window_calls
            ++ [StepLog "Message-only window created successfully."]
            ++ stsR
            ++ [StepLog "Starting message loop. Monitoring active..."]
            ++ stsL ++ stsB).
    replace (set_hwnd hwnd (do_steps P _ w)) with w3.
    2:{ rewrite Hw3, Hstart, <- do_steps_set_hwnd, <- !do_steps_app.
        now rewrite <- !app_assoc. }
    split; [reflexivity|].
    rewrite !step_texts_app, !step_calls_app, HtR, HcR, HtL, HcL, HtB, HcB.
    split; reflexivity.
Qed.

(** The same for the whole of [main]; [wo] is the world at the moment the
    log has been opened. *)
Lemma main_steps (s : Session) (dir : string) (u : unit) (hwnd : Z) :
  project_dir P s = inl dir ->
  log_open_result s = true ->
  RegisterClassW_result s = Succeeded u ->
  CreateWindowExW_result s = Succeeded hwnd ->
  exists wo sts,
    main P s
    = loop_outcome s (end_world P s (set_hwnd hwnd (do_steps P sts wo))) /\
    g_logFile wo = mkStream true false (log_earlier s) [] "" "" /\
    os_calls wo = directory_calls s /\
    step_texts sts
    = ["--- SecurityMonitor Started ---";
       ("Project Directory: " ++ dir)%string] ++ run_texts P s /\
    step_calls sts
    = window_calls ++ registration_calls s
      ++ loop_calls P (GetMessage_calls s) ++ cleanup_calls P s.
Proof.
  intros Hdir Hopen Hclass Hwin. unfold main, GetExecutableDirectory.
  unfold project_dir in Hdir.
  destruct (GetModuleFileNameW_result s) as [path|e] eqn:Hmod;
    [injection Hdir as <- | rewrite Hdir]; rewrite Hopen; cbn [negb];
    match goal with
    | |- context [main_window P s (LogEvent P ?b (LogEvent P ?a ?wo))] =>
        destruct (main_window_steps s (LogEvent P b (LogEvent P a wo))
                    u hwnd Hclass Hwin) as (sts & Hrun & Ht & Hc);
        exists wo, ([StepLog a; StepLog b] ++ sts);
        rewrite Hrun, do_steps_app, step_texts_app, step_calls_app, Ht, Hc
    end;
    (split; [reflexivity|]);
    (split;
     [cbn [g_logFile set_logFile written put_cout set_logFilePath];
      rewrite ?LogError_eq, ?LogEvent_g_logFile; reflexivity|]);
    (split;
     [cbn [os_calls set_logFile put_cout set_logFilePath];
      rewrite ?LogError_os_calls;
      cbn [os_calls os_call put_cerr initial_World app];
      unfold directory_calls, error_calls; rewrite Hmod; reflexivity|]);
    split; reflexivity.
Qed.


(** Closing a stream that has nothing left in its buffer adds nothing to
    the file. *)
Lemma end_world_file (s : Session) (w : World) (e : string)
      (lines : list Line) :
  g_logFile w = mkStream true false e lines "" "" ->
  written (g_logFile (end_world P s w)) = lines /\
  earlier (g_logFile (end_world P s w)) = e /\
  torn (g_logFile (end_world P s w)) = ""%string.
Proof.
  intros E. unfold end_world.
  destruct (final_msg (GetMessage_calls s)).
  - rewrite E. cbn [is_open]. unfold close_log.
    cbn [g_logFile set_logFile]. rewrite E. unfold stream_close.
    cbn [written earlier torn pending]. rewrite substring_empty.
    repeat split; reflexivity.
  - rewrite E. repeat split; reflexivity.
Qed.

(** The log file of a run whose start-up succeeds, when the disk takes every
    write. *)
Lemma main_log_file (s : Session) (dir : string) (u : unit) (hwnd : Z) :
  healthy P ->
  project_dir P s = inl dir ->
  log_open_result s = true ->
  RegisterClassW_result s = Succeeded u ->
  CreateWindowExW_result s = Succeeded hwnd ->
  exists w',
    main P s = loop_outcome s w' /\
    file_texts w'
    = ["--- SecurityMonitor Started ---";
       ("Project Directory: " ++ dir)%string] ++ run_texts P s /\
    file_chars (g_logFile w')
    = (log_earlier s
       ++ String.concat "" (map line_chars (written (g_logFile w'))))%string.
Proof.
  intros Hd Hdir Hopen Hclass Hwin.
  destruct (main_steps s dir u hwnd Hdir Hopen Hclass Hwin)
    as (wo & sts & Hrun & Hf0 & _ & Ht & _).
  eexists. split; [exact Hrun|].
  assert (Hr : sink_ready wo)
    by (unfold sink_ready; rewrite Hf0; split; reflexivity).
  destruct (do_steps_healthy P sts wo Hd Hr) as (Hw & _).
  rewrite Hf0 in Hw. cbn [earlier written torn pending app] in Hw.
  destruct (end_world_file s (set_hwnd hwnd (do_steps P sts wo)) _ _ Hw)
    as (Ew & Ee & Et).
  unfold file_texts, file_chars. rewrite Ew, Ee, Et.
  rewrite append_empty, map_text_stamp_from, Ht.
  split; reflexivity.
Qed.

End WholeRun.

(** ** The log of a whole run *)

Section RunLog.

Variable P : Platform.

Lemma logged_by_no_error (m : MSG) :
  count says_error (logged_by P m) = 0%nat.
Proof.
  destruct m as [uMsg wPar lPar]. unfold logged_by, WindowProc.
  cbn [message wParam lParam].
  destruct lPar as [pHdr|]; rewrite ?narrow_device_path_run;
    [destruct (decoded_path P (dbcc_name pHdr)) as [s|]|];
    repeat match goal with
           | |- context [if ?b then _ else _] => destruct b
           end;
    unfold console_texts; cbn [os_call cout]; rewrite ?LogEvent_cout;
    cbn [map cout app initial_World os_call text];
    reflexivity.
Qed.

Lemma flat_logged_by_no_error (ms : list MSG) :
  count says_error (flat_map (logged_by P) ms) = 0%nat.
Proof.
  induction ms as [|m ms IH]; [reflexivity|].
  cbn [flat_map]. now rewrite count_app, IH, logged_by_no_error.
Qed.

Lemma cleanup_texts_counts (s : Session) :
  count says_warning (cleanup_texts P s) = 0%nat /\
  count says_error (cleanup_texts P s) = 0%nat.
Proof.
  unfold cleanup_texts. destruct (final_msg (GetMessage_calls s)).
  - change ("--- SecurityMonitor Stopping ---"
            :: flat_map (logged_by P) (DestroyWindow_sends s))
      with (["--- SecurityMonitor Stopping ---"]
            ++ flat_map (logged_by P) (DestroyWindow_sends s)).
    rewrite !count_app, flat_logged_by_no_error.
    destruct (flat_logged_by_counts P (DestroyWindow_sends s)) as [-> _].
    split; reflexivity.
  - rewrite flat_logged_by_no_error.
    destruct (flat_logged_by_counts P (GetMessage_blocked_sends s))
      as [-> _].
    split; reflexivity.
Qed.

(** X10: the log file of a run whose start-up succeeds.  When the disk
    takes every write, the file holds what it held when it was opened (the
    log is opened for appending) followed by the lines of this run and
    nothing else, and these lines are, in this order: the two opening
    lines, the line for the window, the lines of the two registrations, the
    line that announces the loop, the lines of the messages in the order of
    delivery and then, once the loop is left, the closing line followed by
    the lines of the messages sent while the window is destroyed, or else
    the lines of the messages sent during the call of [GetMessage] that does
    not return; [main] is then waiting in that call or has returned the
    [wParam] of the last message. *)
Theorem X10_log_file_of_a_run (s : Session) (dir : string) (u : unit)
        (hwnd : Z) :
  size_query_nonneg P ->
  healthy P ->
  project_dir P s = inl dir ->
  log_open_result s = true ->
  RegisterClassW_result s = Succeeded u ->
  CreateWindowExW_result s = Succeeded hwnd ->
  exists w',
    main P s = loop_outcome s w' /\
    file_chars (g_logFile w')
    = (log_earlier s
       ++ String.concat "" (map line_chars (written (g_logFile w'))))%string /\
    file_texts w'
    = ["--- SecurityMonitor Started ---";
       ("Project Directory: " ++ dir)%string;
       "Message-only window created successfully."]
      ++ registration_texts P s
      ++ ["Starting message loop. Monitoring active..."]
      ++ flat_map (logged_by P) (delivered (GetMessage_calls s))
      ++ cleanup_texts P s.
Proof.
  intros Hq Hd Hdir Hopen Hclass Hwin.
  destruct (main_log_file P Hq s dir u hwnd Hd Hdir Hopen Hclass Hwin)
    as (w' & Hrun & Htexts & Hchars).
  exists w'. split; [exact Hrun|]. split; [exact Hchars|].
  rewrite Htexts. reflexivity.
Qed.

(** X11: among the lines such a run adds to the log file, after what the
    file held when it was opened, there is one "WARNING" line and one
    "ERROR in" line for each registration that failed, whether the
    clipboard, the devices or both; none when both succeed. *)
Theorem X11_one_warning_per_failed_registration (s : Session) (dir : string)
        (u : unit) (hwnd : Z) :
  size_query_nonneg P ->
  healthy P ->
  project_dir P s = inl dir ->
  log_open_result s = true ->
  RegisterClassW_result s = Succeeded u ->
  CreateWindowExW_result s = Succeeded hwnd ->
  exists w',
    main P s = loop_outcome s w' /\
    file_chars (g_logFile w')
    = (log_earlier s
       ++ String.concat "" (map line_chars (written (g_logFile w'))))%string /\
    count says_warning (file_texts w') = failed_registrations s /\
    count says_error (file_texts w') = failed_registrations s.
Proof.
  intros Hq Hd Hdir Hopen Hclass Hwin.
  destruct (main_log_file P Hq s dir u hwnd Hd Hdir Hopen Hclass Hwin)
    as (w' & Hrun & Htexts & Hchars).
  exists w'. split; [exact Hrun|]. split; [exact Hchars|].
  rewrite Htexts.
  unfold run_texts, registration_texts, failed_registrations.
  rewrite !count_app.
  destruct (flat_logged_by_counts P (delivered (GetMessage_calls s)))
    as [-> _].
  rewrite flat_logged_by_no_error.
  destruct (cleanup_texts_counts s) as [-> ->].
  destruct (AddClipboardFormatListener_result s);
    destruct (RegisterDeviceNotification_result s); split; reflexivity.
Qed.

End RunLog.

(** ** How [main] leaves the log stream, and what a failed start-up reports *)

Section Exits.

Variable P : Platform.

Lemma LogEvent_is_open (msg : string) (w : World) :
  is_open (g_logFile (LogEvent P msg w)) = is_open (g_logFile w).
Proof. apply (LogEvent_grows P msg w). Qed.

Lemma cleanup_closes (s : Session) (msg : MSG) (w : World) :
  match cleanup P s msg w with
  | Exited _ w' => is_open (g_logFile w') = false
  | _ => True
  end.
Proof.
  unfold cleanup. destruct (deliver P _ _ _) as [w1|]; [|exact I].
  destruct (is_open (g_logFile w1)) eqn:E; [reflexivity | exact E].
Qed.

Lemma main_window_closes (s : Session) (w : World) :
  match main_window P s w with
  | Exited _ w' => is_open (g_logFile w') = false
  | _ => True
  end.
Proof.
  unfold main_window.
  destruct (RegisterClassW_result s); [|reflexivity].
  destruct (CreateWindowExW_result s); [|reflexivity].
  destruct (message_loop P _ _); [apply cleanup_closes | | exact I].
  destruct (deliver P _ _ _); exact I.
Qed.

(** X12: whenever [main] returns, on a failed start-up as well as after the
    loop, the log stream is closed. *)
Theorem X12_log_closed_when_main_returns (s : Session) :
  match main P s with
  | Exited _ w => is_open (g_logFile w) = false
  | _ => True
  end.
Proof.
  unfold main, GetExecutableDirectory.
  destruct (GetModuleFileNameW_result s);
    [|destruct (current_path_result s)];
    try (destruct (log_open_result s); cbn [negb];
         [apply main_window_closes|]);
    rewrite ?GetTimestamp_eq;
    cbn [g_logFile put_cerr put_cout tick set_logFilePath os_call];
    rewrite ?LogError_eq, ?LogEvent_is_open; reflexivity.
Qed.

(** With a directory and an open log, [main] comes to the window with the
    two opening lines in the file. *)
Lemma main_opening (s : Session) (dir : string) :
  project_dir P s = inl dir ->
  log_open_result s = true ->
  exists w0,
    main P s = main_window P s w0 /\
    (healthy P ->
     sink_ready w0 /\
     file_texts w0
     = ["--- SecurityMonitor Started ---";
        ("Project Directory: " ++ dir)%string]).
Proof.
  unfold project_dir, main, GetExecutableDirectory. intros Hdir Hopen.
  destruct (GetModuleFileNameW_result s);
    [injection Hdir as <- | rewrite Hdir]; rewrite Hopen; cbn [negb];
    match goal with
    | |- context [main_window P s (LogEvent P ?b (LogEvent P ?a ?wo))] =>
        assert (Hem : emits P wo (LogEvent P b (LogEvent P a wo)) [a; b])
          by emits_chain;
        assert (Hready : sink_ready wo) by (split; reflexivity);
        assert (Hempty : file_texts wo = [])
          by (unfold file_texts;
              cbn [g_logFile set_logFile written put_cout set_logFilePath];
              rewrite ?LogError_eq, ?LogEvent_g_logFile; reflexivity);
        exists (LogEvent P b (LogEvent P a wo)); (split; [reflexivity|]);
        intros Hd; destruct Hem as [_ Hem];
        destruct (Hem Hd Hready) as [E R];
        split; [exact R | now rewrite E, Hempty]
    end.
Qed.

Lemma logged_then_close (w w0 : World) (ts : list string) :
  emits P w w0 ts -> logged P w (close_log P w0) ts.
Proof.
  intros [Hc Hf]. split; [exact Hc|].
  intros Hd Hr. apply (Hf Hd Hr).
Qed.

Lemma main_window_class_fails_logged (s : Session) (w : World) (e : Z) :
  RegisterClassW_result s = Failed e ->
  exists w', main_window P s w = Exited 1 w' /\
             logged P w w' [error_text P "RegisterClassW" e].
Proof.
  intros Hclass. unfold main_window. rewrite Hclass.
  eexists. split; [reflexivity|].
  apply logged_then_close. rewrite LogError_eq. emits_chain.
Qed.

Lemma main_window_create_fails_logged (s : Session) (w : World) (u : unit)
      (e : Z) :
  RegisterClassW_result s = Succeeded u ->
  CreateWindowExW_result s = Failed e ->
  exists w', main_window P s w = Exited 1 w' /\
             logged P w w' [error_text P "CreateWindowExW (Message Window)" e].
Proof.
  intros Hclass Hwin. unfold main_window. rewrite Hclass, Hwin.
  eexists. split; [reflexivity|].
  apply logged_then_close. rewrite LogError_eq. emits_chain.
Qed.

(** X13: what a fatal start-up failure leaves behind.  Without a directory
    [main] returns 1 with nothing added to the log file and, while the clock
    can be read, three lines on the error stream: the failure of
    [GetModuleFileNameW], the text [LogError] could not log because the file
    is not open yet, and the exception.  When the log cannot be opened it
    returns 1 with the path of the log as the last line on the error
    stream.  When the window class or the window cannot be created it
    returns 1 and the failure is the last line added to the log file, after
    the two opening lines. *)
Theorem X13_startup_failures_are_reported (s : Session) :
  (forall e what,
     clock_works P ->
     GetModuleFileNameW_result s = Failed e ->
     current_path_result s = inr what ->
     exists w,
       main P s = Exited 1 w /\
       file_texts w = [] /\
       console_texts w
       = [error_text P "GetExecutableDirectory/GetModuleFileNameW" e] /\
       map text (cerr w)
       = [("FATAL: Failed to get executable path. Error code: "
           ++ to_string e)%string;
          ("ERROR: Log file is not open. Cannot log: "
           ++ error_text P "GetExecutableDirectory/GetModuleFileNameW" e)%string;
          ("FATAL: Could not determine executable directory: "
           ++ what)%string]) /\
  (forall dir,
     project_dir P s = inl dir ->
     log_open_result s = false ->
     exists w before,
       main P s = Exited 1 w /\
       file_texts w = [] /\
       map text (cerr w)
       = before ++ [("FATAL: Could not open log file: "
                     ++ path_append P dir g_logFileName)%string]) /\
  (forall dir e,
     healthy P ->
     project_dir P s = inl dir ->
     log_open_result s = true ->
     RegisterClassW_result s = Failed e ->
     exists w,
       main P s = Exited 1 w /\
       file_texts w
       = ["--- SecurityMonitor Started ---";
          ("Project Directory: " ++ dir)%string;
          error_text P "RegisterClassW" e]) /\
  (forall dir u e,
     healthy P ->
     project_dir P s = inl dir ->
     log_open_result s = true ->
     RegisterClassW_result s = Succeeded u ->
     CreateWindowExW_result s = Failed e ->
     exists w,
       main P s = Exited 1 w /\
       file_texts w
       = ["--- SecurityMonitor Started ---";
          ("Project Directory: " ++ dir)%string;
          error_text P "CreateWindowExW (Message Window)" e]).
Proof.
  repeat split.
  - intros e what Hclock Hmod Hcwd. unfold main, GetExecutableDirectory.
    rewrite Hmod, Hcwd. eexists. split; [reflexivity|].
    rewrite LogError_eq. unfold file_texts, console_texts.
    rewrite LogEvent_not_open by reflexivity. cbv zeta.
    cbn [g_logFile cout cerr put_cerr os_call initial_World written].
    rewrite !clock_report_works by exact Hclock.
    repeat split; reflexivity.
  - intros dir Hdir Hopen. unfold project_dir in Hdir.
    unfold main, GetExecutableDirectory.
    destruct (GetModuleFileNameW_result s);
      [injection Hdir as <- | rewrite Hdir]; rewrite Hopen; cbn [negb];
      rewrite GetTimestamp_eq;
      eexists; eexists; (split; [reflexivity|]);
      unfold file_texts;
      cbn [cerr put_cerr put_cout set_logFilePath g_logFilePath g_logFile
           written map text os_call initial_World];
      rewrite ?LogError_eq, ?LogEvent_g_logFile;
      rewrite ?map_app; (split; reflexivity).
  - intros dir e Hd Hdir Hopen Hclass.
    destruct (main_opening s dir Hdir Hopen) as (w0 & Hmain & Hfile).
    destruct (Hfile Hd) as [Hr Hf0].
    destruct (main_window_class_fails_logged s w0 e Hclass)
      as (w & Hrun & _ & Hlog).
    exists w. rewrite Hmain. split; [exact Hrun|].
    now rewrite (Hlog Hd Hr), Hf0.
  - intros dir u e Hd Hdir Hopen Hclass Hwin.
    destruct (main_opening s dir Hdir Hopen) as (w0 & Hmain & Hfile).
    destruct (Hfile Hd) as [Hr Hf0].
    destruct (main_window_create_fails_logged s w0 u e Hclass Hwin)
      as (w & Hrun & _ & Hlog).
    exists w. rewrite Hmain. split; [exact Hrun|].
    now rewrite (Hlog Hd Hr), Hf0.
Qed.

End Exits.

(** ** The calls into the system *)





(** ** The further properties on concrete inputs *)

Lemma X1_witness :
  exists w',
    message_loop demo_platform demo_calls failed_World
    = loop_result_of demo_calls w' /\
    grows failed_World w'.
Proof.
  apply (X1_loop_appends_only demo_platform demo_calls failed_World).
  exact demo_size_query_nonneg.
Defined.

Lemma demo_clock_works : clock_works demo_platform.
Proof. intros k. eexists. reflexivity. Qed.


Lemma X2_witness :
  exists w',
    message_loop demo_platform demo_calls failed_World
    = loop_result_of demo_calls w' /\
    g_logFile w' = g_logFile failed_World /\
    console_texts w'
    = console_texts failed_World
      ++ flat_map (logged_by demo_platform) (delivered demo_calls) /\
    map text (cerr w')
    = map text (cerr failed_World)
      ++ map (fun _ => write_failure_text failed_World)
             (flat_map (logged_by demo_platform) (delivered demo_calls)).
Proof.
  apply (X2_failed_stream_keeps_file_frozen demo_platform demo_calls
           failed_World).
  - exact demo_size_query_nonneg.
  - exact demo_clock_works.
  - reflexivity.
  - reflexivity.
Defined.


(** The file after the loop on that disk: the first line, then the first
    five characters of the second. *)
Example full_disk_file :
  match message_loop full_disk_platform demo_calls open_World with
  | LoopEnded _ w => Some (file_chars (g_logFile w), failbit (g_logFile w),
                           console_texts w)
  | _ => None
  end
  = Some (("[tick 0] USB Device Plugged In: \\?\USB#VID_1234"
           ++ String (ascii_of_nat 10) "[tick")%string,
          true,
          ["USB Device Plugged In: \\?\USB#VID_1234"%string;
           "Clipboard content changed (Copy/Paste detected)."%string;
           "Clipboard content changed (Copy/Paste detected)."%string]).
Proof. vm_compute. reflexivity. Qed.

(** A clock that cannot be read: the line carries the fixed prefix and the
    exception is reported on the error stream. *)
Example broken_clock_line :
  let w := LogEvent broken_clock_platform "event" open_World in
  (map render (written (g_logFile w)), map render (cerr w))
  = (["[TIMESTAMP_ERROR] event"%string],
     ["Error getting timestamp: bad time"%string]).
Proof. vm_compute. reflexivity. Qed.

Lemma X4_witness :
  exists w',
    message_loop demo_platform demo_calls open_World
    = loop_result_of demo_calls w' /\
    g_logFile w'
    = mkStream true false (earlier (g_logFile open_World))
        (written (g_logFile open_World)
         ++ stamp_from demo_platform (clock_reads open_World)
              (flat_map (logged_by demo_platform) (delivered demo_calls)))
        (torn (g_logFile open_World)) (pending (g_logFile open_World)) /\
    cout w'
    = cout open_World
      ++ stamp_from demo_platform (clock_reads open_World)
           (flat_map (logged_by demo_platform) (delivered demo_calls)) /\
    cerr w' = cerr open_World /\
    clock_reads w'
    = (clock_reads open_World
       + List.length
           (flat_map (logged_by demo_platform) (delivered demo_calls)))%nat.
Proof.
  apply (X4_one_clock_reading_per_event demo_platform demo_calls open_World).
  - exact demo_size_query_nonneg.
  - exact demo_healthy.
  - exact demo_clock_works.
  - split; reflexivity.
Defined.


Lemma X6_witness :
  exists r w',
    WindowProc demo_platform 77 WM_DESTROY 0 None open_World = Some (r, w') /\
    calls_made open_World w'
      (calls_by demo_platform (mkMSG WM_DESTROY 0 None)) /\
    filter is_PostQuitMessage
      (calls_by demo_platform (mkMSG WM_DESTROY 0 None))
    = if WM_DESTROY =? WM_DESTROY then [Call_PostQuitMessage 0] else [].
Proof.
  apply (X6_quit_posted_only_on_destroy demo_platform 77 WM_DESTROY 0 None
           open_World).
  exact demo_size_query_nonneg.
Defined.

(** [DBT_DEVNODES_CHANGED] with the payload of a USB arrival. *)
Lemma X7_witness :
  WindowProc demo_platform 77 WM_DEVICECHANGE 0x0007 (Some usb_arrival_hdr)
    open_World
  = Some (TRUE, open_World).
Proof.
  apply (X7_other_device_changes_leave_no_trace demo_platform 77 0x0007
           (Some usb_arrival_hdr) open_World).
  left. split; discriminate.
Defined.

Lemma X9_witness :
  exists path,
    decoded_path demo_platform (dbcc_name usb_arrival_hdr) = Some path /\
    String.length path
    = Z.to_nat (fst (WideCharToMultiByte demo_platform
                       (wstring_of (dbcc_name usb_arrival_hdr)) 0)) /\
    (List.length
       (snd (WideCharToMultiByte demo_platform
               (wstring_of (dbcc_name usb_arrival_hdr))
               (fst (WideCharToMultiByte demo_platform
                       (wstring_of (dbcc_name usb_arrival_hdr)) 0))))
     = Z.to_nat (fst (WideCharToMultiByte demo_platform
                        (wstring_of (dbcc_name usb_arrival_hdr)) 0)) ->
     path
     = string_of_list_ascii
         (snd (WideCharToMultiByte demo_platform
                 (wstring_of (dbcc_name usb_arrival_hdr))
                 (fst (WideCharToMultiByte demo_platform
                         (wstring_of (dbcc_name usb_arrival_hdr)) 0))))) /\
    (snd (WideCharToMultiByte demo_platform
            (wstring_of (dbcc_name usb_arrival_hdr))
            (fst (WideCharToMultiByte demo_platform
                    (wstring_of (dbcc_name usb_arrival_hdr)) 0))) = [] ->
     path
     = string_of_list_ascii
         (repeat zero
            (Z.to_nat (fst (WideCharToMultiByte demo_platform
                              (wstring_of (dbcc_name usb_arrival_hdr)) 0))))).
Proof.
  apply (proj2 (X9_path_has_announced_size demo_platform
                  (dbcc_name usb_arrival_hdr))).
  cbn. lia.
Defined.

Lemma X10_witness :
  exists w',
    main demo_platform demo_session = loop_outcome demo_session w' /\
    file_chars (g_logFile w')
    = (log_earlier demo_session
       ++ String.concat "" (map line_chars (written (g_logFile w'))))%string /\
    file_texts w'
    = ["--- SecurityMonitor Started ---"%string;
       ("Project Directory: " ++ "C:\app")%string;
       "Message-only window created successfully."%string]
      ++ registration_texts demo_platform demo_session
      ++ ["Starting message loop. Monitoring active..."%string]
      ++ flat_map (logged_by demo_platform)
                  (delivered (GetMessage_calls demo_session))
      ++ cleanup_texts demo_platform demo_session.
Proof.
  apply (X10_log_file_of_a_run demo_platform demo_session "C:\app"%string
           tt 77).
  - exact demo_size_query_nonneg.
  - exact demo_healthy.
  - reflexivity.
  - reflexivity.
  - reflexivity.
  - reflexivity.
Defined.

(** The file the example session was given holds a "WARNING" line of an
    earlier run; the run adds one. *)
Lemma X11_witness :
  exists w',
    main demo_platform demo_session = loop_outcome demo_session w' /\
    file_chars (g_logFile w')
    = (log_earlier demo_session
       ++ String.concat "" (map line_chars (written (g_logFile w'))))%string /\
    count says_warning (file_texts w') = failed_registrations demo_session /\
    count says_error (file_texts w') = failed_registrations demo_session.
Proof.
  apply (X11_one_warning_per_failed_registration demo_platform demo_session
           "C:\app"%string tt 77).
  - exact demo_size_query_nonneg.
  - exact demo_healthy.
  - reflexivity.
  - reflexivity.
  - reflexivity.
  - reflexivity.
Defined.

Lemma X13_witness :
  exists w,
    main demo_platform no_directory_session = Exited 1 w /\
    file_texts w = [] /\
    console_texts w
    = [error_text demo_platform
         "GetExecutableDirectory/GetModuleFileNameW" 2] /\
    map text (cerr w)
    = [("FATAL: Failed to get executable path. Error code: "
        ++ to_string 2)%string;
       ("ERROR: Log file is not open. Cannot log: "
        ++ error_text demo_platform
             "GetExecutableDirectory/GetModuleFileNameW" 2)%string;
       ("FATAL: Could not determine executable directory: "
        ++ "current_path failed")%string].
Proof.
  apply (proj1 (X13_startup_failures_are_reported demo_platform
                  no_directory_session) 2 "current_path failed"%string).
  - exact demo_clock_works.
  - reflexivity.
  - reflexivity.
Defined.



(** The calls of the example run. *)
Example demo_session_calls :
  match main demo_platform demo_session with
  | Exited _ w => os_calls w
  | _ => []
  end
  = [Call_GetModuleFileNameW; Call_GetModuleHandle; Call_RegisterClassW;
     Call_GetModuleHandle; Call_CreateWindowExW;
     Call_AddClipboardFormatListener; Call_RegisterDeviceNotification;
     Call_GetLastError; Call_FormatMessageA 5; Call_LocalFree;
     Call_GetMessage;
     Call_WideCharToMultiByte
       [92; 92; 63; 92; 85; 83; 66; 35; 86; 73; 68; 95; 49; 50; 51; 52] 0;
     Call_WideCharToMultiByte
       [92; 92; 63; 92; 85; 83; 66; 35; 86; 73; 68; 95; 49; 50; 51; 52] 16;
     Call_TranslateMessage; Call_DispatchMessage; Call_GetMessage;
     Call_TranslateMessage; Call_DispatchMessage; Call_GetMessage;
     Call_RemoveClipboardFormatListener; Call_DestroyWindow;
     Call_PostQuitMessage 0].
Proof. vm_compute. reflexivity. Qed.

(** The run that waits in its first call of [GetMessage] has made that call,
    and the clipboard update sent during it is logged. *)
Example waiting_session_run :
  match main demo_platform waiting_session with
  | Waiting w => Some (os_calls w, file_texts w)
  | _ => None
  end
  = Some
      ([Call_GetModuleFileNameW; Call_GetModuleHandle; Call_RegisterClassW;
        Call_GetModuleHandle; Call_CreateWindowExW;
        Call_AddClipboardFormatListener; Call_RegisterDeviceNotification;
        Call_GetMessage],
       ["--- SecurityMonitor Started ---"%string;
        "Project Directory: C:\app"%string;
        "Message-only window created successfully."%string;
        "Successfully registered clipboard listener."%string;
        "Successfully registered for device notifications."%string;
        "Starting message loop. Monitoring active..."%string;
        "Clipboard content changed (Copy/Paste detected)."%string]).
Proof. vm_compute. reflexivity. Qed.
